(** * Halotools tutorial notebooks: embedding and properties

    The sources are three IPython notebooks (nbformat 3) and one
    reStructuredText index page:

    - [docs/notebooks/halocat_analysis/halo_catalog_analysis_tutorial1.ipynb]
      holds the halo-catalog analysis notebook followed by the HOD-modelling
      notebook that defines the class [Size];
    - [docs/notebooks/subhalo_modeling/subhalo_modeling_tutorial1.ipynb]
      holds the subhalo-modelling notebook followed by the index page
      [halo_catalog_analysis_tutorial].

    The Python the notebooks define themselves ([count_subhalos], the class
    [Size]) is embedded shallowly as Rocq functions.  The functions of the
    [halotools] package that the cells call are not among the sources; what
    the notebooks say about them is collected in the module [Halotools]. *)

From Stdlib Require Import ZArith Ascii String List Lia Floats.SpecFloat.
From stdpp Require Import base strings list gmap.

Local Open Scope string_scope.
Local Open Scope list_scope.
Set Warnings "-register-all".

(** * Python exceptions and results *)

Module Py.

(** The exceptions the embedded code can raise. *)
Inductive exn : Type :=
| KeyError (key : string)
| TypeError (msg : string)
| ValueError (msg : string)
| NameError (name : string)
| UnboundLocalError (name : string)
| AttributeError (name : string)
| RecursionError
| HalotoolsError (evalue : string).

(** A computation either returns a value or raises. *)
Inductive result (A : Type) : Type :=
| Ok (a : A)
| Raise (e : exn).
Arguments Ok {A} a.
Arguments Raise {A} e.

#[export] Instance result_ret : MRet result := @Ok.
#[export] Instance result_bind : MBind result :=
  λ A B f r, match r with Ok a => f a | Raise e => Raise e end.
#[export] Instance result_fmap : FMap result :=
  λ A B f r, match r with Ok a => Ok (f a) | Raise e => Raise e end.

Definition is_ok {A} (r : result A) : bool :=
  match r with Ok _ => true | Raise _ => false end.

(** [kwargs[key]] on a keyword dictionary. *)
Definition kwargs_getitem {V} (kwargs : gmap string V) (key : string) : result V :=
  match kwargs !! key with
  | Some v => Ok v
  | None => Raise (KeyError key)
  end.

End Py.
Export Py.

(** * Tables of columns

    An Astropy [Table] is an ordered sequence of named columns, all of the
    same length.  A column carries its numpy dtype and its cells.  The cells
    are numpy scalars; their arithmetic is not fixed here, it is a parameter
    of the development:

    - [astype dt v] is the value a cell of dtype [dt] holds after [v] has
      been stored in it;
    - [true_divide] is numpy's element division [/];
    - [pyint] and [pyfloat] turn a Python integer and a Python float literal
      of integral value into a scalar. *)

Class NumpyScalar (scalar : Type) := {
  scalar_eq_dec :: EqDecision scalar;
  astype : string → scalar → scalar;
  true_divide : scalar → scalar → scalar;
  pyint : Z → scalar;
  pyfloat : Z → scalar
}.

Module Astropy.
Section Table.
Context {scalar : Type}.

Record Column : Type := mkColumn { dtype : string; data : list scalar }.

Definition Table : Type := list (string * Column).

Definition colnames (t : Table) : list string := t.*1.

(** [len(table)]: the number of rows, read off the first column. *)
Definition nrows (t : Table) : nat :=
  match t with
  | [] => 0
  | (_, c) :: _ => length (data c)
  end.

(** The invariant of an Astropy table: distinct column names, columns of
    one length. *)
Definition table_ok (t : Table) : Prop :=
  NoDup (colnames t) ∧ Forall (λ kc, length (data kc.2) = nrows t) t.

(** [table[name]] *)
Fixpoint getitem (t : Table) (name : string) : result Column :=
  match t with
  | [] => Raise (KeyError name)
  | (k, c) :: t' => if decide (k = name) then Ok c else getitem t' name
  end.

(** [table[name] = c]: replaces the column in place, or appends it. *)
Fixpoint setitem (t : Table) (name : string) (c : Column) : Table :=
  match t with
  | [] => [(name, c)]
  | (k, c0) :: t' =>
      if decide (k = name) then (k, c) :: t' else (k, c0) :: setitem t' name c
  end.

(** [np.zeros(n, dtype=dt)] *)
Definition zeros `{NumpyScalar scalar} (n : nat) (dt : string) : Column :=
  {| dtype := dt; data := replicate n (astype dt (pyint 0)) |}.

(** [column[:] = values]: writes into the cells of the existing column,
    which keeps its dtype and its length.  [values] has the length of the
    column, or length one (broadcast); numpy refuses anything else. *)
Definition setslice `{NumpyScalar scalar}
    (dst : Column) (values : list scalar) : result Column :=
  if decide (length values = length (data dst)) then
    Ok {| dtype := dtype dst; data := astype (dtype dst) <$> values |}
  else
    match values with
    | [v] => Ok {| dtype := dtype dst;
                   data := (λ _, astype (dtype dst) v) <$> data dst |}
    | _ => Raise (ValueError "could not broadcast input array")
    end.
End Table.
Arguments Column : clear implicits.
Arguments Table : clear implicits.
End Astropy.
Export Astropy.

(** * The halotools package, as the notebooks describe it

    The cells import [add_new_table_column], the model factories and the
    halo catalogs from the [halotools] package.  The package is the
    library the notebooks document, and none of its modules is among the
    sources; every definition of this module is therefore modelled from the
    spec, and from what the notebooks show and say of the library: the
    calls in the cells, the printed tables, the traceback, the narrative. *)

Module Halotools.
Section Halotools.
Context {scalar : Type} `{NumpyScalar scalar}.

(** ** [halotools.utils.add_new_table_column] *)

(** Modelled from the spec: the members of a group, part of the column
    aggregation of [add_new_table_column] (not among the sources): the cells
    of [col] in the rows whose grouping key is [k]. *)
Fixpoint members (keys col : list scalar) (k : scalar) : list scalar :=
  match keys, col with
  | k' :: keys', x :: col' =>
      if decide (k' = k) then x :: members keys' col' k else members keys' col' k
  | _, _ => []
  end.

(** Modelled from the spec: the size of a group of
    [add_new_table_column] (not among the sources), the number of rows whose
    grouping key is [k]. *)
Definition group_size (keys : list scalar) (k : scalar) : nat :=
  length (filter (λ k', k' = k) keys).

(** Modelled from the spec: [halotools.utils.add_new_table_column], which
    the halo-catalog notebook imports and calls and whose code is not among
    the sources.  The spec names the operation (column aggregation); the
    notebook describes it: the aggregation function operates on the
    members of each halo, that is on the rows sharing the grouping key,
    and receives the columns named in [colnames_needed_by_function]
    restricted to those rows; its result is broadcast to the members of
    the group, in a new column of the given name and dtype. *)
Definition add_new_table_column
    (table : Table scalar) (new_colname new_coltype grouping_key : string)
    (aggregation_function : list (list scalar) → result scalar)
    (colnames_needed_by_function : list string) : result (Table scalar) :=
  keys ← getitem table grouping_key;
  cols ← mapM (getitem table) colnames_needed_by_function;
  values ← mapM (λ k, aggregation_function
                        ((λ c, members (data keys) (data c) k) <$> cols))
                (data keys);
  mret (setitem table new_colname
          {| dtype := new_coltype; data := astype new_coltype <$> values |}).

(** ** Component models, halo catalogs, mocks and composite models *)

(** Modelled from the spec: what the factories (not among the sources)
    expect of a component model, read off the class [Size] that the
    HOD-modelling notebook writes for them: any object offering the
    attributes below; its methods are looked up by name and called with
    keyword arguments, of which [table] is the galaxy table they write
    into. *)
Record ComponentModel : Type := {
  gal_type : string;
  _mock_generation_calling_sequence : list string;
  _galprop_dtypes_to_allocate : list (string * string);
  list_of_haloprops_needed : list string;
  methods : gmap string (gmap string (Table scalar) → result (Table scalar))
}.

(** Modelled from the spec: a halo catalog ([CachedHaloCatalog], not among
    the sources), the library's table of halo properties of a simulation
    snapshot, with the name of the simulation. *)
Record HaloCatalog : Type := {
  simname : string;
  halo_table : Table scalar
}.

(** Modelled from the spec: the mock bound to a model by [populate_mock]
    (not among the sources): the simname and the halo catalog it was made
    from, and the [galaxy_table] holding the synthetic galaxies. *)
Record Mock : Type := {
  mock_simname : string;
  mock_halocat : HaloCatalog;
  galaxy_table : Table scalar
}.

(** Modelled from the spec: a composite model, the object a model factory
    (not among the sources) returns: the components under their factory
    keywords, and the mock once one is bound ([hasattr(self, 'mock')]). *)
Record Model : Type := {
  model_dictionary : list (string * ComponentModel);
  mock : option Mock
}.

(** Modelled from the spec: the components of a composite model (the
    factories are not among the sources), without their keywords. *)
Definition components (self : Model) : list ComponentModel :=
  (model_dictionary self).*2.

(** Modelled from the spec: the model factory
    [halotools.empirical_models.SubhaloModelFactory], not among the sources,
    called by the subhalo-modelling notebook with component models as
    keyword arguments.  The keyword is kept as the nickname of the
    component, an internal bookkeeping device as the notebook puts it; a new
    model has no mock. *)
Definition SubhaloModelFactory (kwargs : list (string * ComponentModel)) : Model :=
  {| model_dictionary := kwargs; mock := None |}.

(** Modelled from the spec: the model factory
    [halotools.empirical_models.HodModelFactory], not among the sources,
    called by the HOD-modelling notebook with a baseline model and further
    components as keyword arguments. *)
Definition HodModelFactory (baseline_model_instance : Model)
    (kwargs : list (string * ComponentModel)) : Model :=
  {| model_dictionary := model_dictionary baseline_model_instance ++ kwargs;
     mock := None |}.

(** Modelled from the spec: what the package (not among the sources) holds
    outside the model: the catalog generated on the fly for
    [simname = 'fake'], the catalogs downloaded to the cache, and the table
    of galaxies a factory derives from a halo catalog before the components
    run (the halo properties and the columns the factory fills itself; the
    notebooks do not describe how). *)
Record World : Type := {
  FakeSim : HaloCatalog;
  cache : gmap string HaloCatalog;
  seed_table : HaloCatalog → list ComponentModel → Table scalar
}.

(** Modelled from the spec: [sim_defaults.default_simname] (not among the
    sources); the notebooks call [bolshoi] the default Halotools catalog. *)
Definition default_simname : string := "bolshoi".

(** Modelled from the spec: the arguments the notebooks pass to
    [populate_mock] (not among the sources): [simname = ...], or a halo
    catalog. *)
Record populate_kwargs : Type := {
  kw_simname : option string;
  kw_halocat : option HaloCatalog
}.

(** Modelled from the spec: the allocation step of mock population (not
    among the sources), by the [_galprop_dtypes_to_allocate] mechanism the
    notebooks name: one column of zeros per galaxy property a component
    declares. *)
Definition allocate_galprops (table : Table scalar) (c : ComponentModel)
    : Table scalar :=
  foldl (λ t nd, setitem t nd.1 (zeros (nrows table) nd.2))
        table (_galprop_dtypes_to_allocate c).

(** Modelled from the spec: the calls mock population (not among the
    sources) makes to a component, its methods in the order of
    [_mock_generation_calling_sequence], each with [table] as keyword. *)
Fixpoint call_sequence (c : ComponentModel) (names : list string)
    (table : Table scalar) : result (Table scalar) :=
  match names with
  | [] => Ok table
  | name :: names' =>
      match methods c !! name with
      | None => Raise (AttributeError name)
      | Some f => table' ← f {[ "table" := table ]}; call_sequence c names' table'
      end
  end.

(** Modelled from the spec: mock population (not among the sources) running
    the components one after the other. *)
Fixpoint run_components (cs : list ComponentModel) (table : Table scalar)
    : result (Table scalar) :=
  match cs with
  | [] => Ok table
  | c :: cs' =>
      table' ← call_sequence c (_mock_generation_calling_sequence c) table;
      run_components cs' table'
  end.

(** Modelled from the spec: mock population (not among the sources), the
    library's process of generating a synthetic galaxy catalog from a halo
    catalog and a model.
    The columns of the galaxy properties are allocated from the
    [_galprop_dtypes_to_allocate] of the components, then the components
    fill them. *)
Definition mock_population (w : World) (halocat : HaloCatalog)
    (cs : list ComponentModel) : result (Table scalar) :=
  run_components cs (foldl allocate_galprops (seed_table w halocat cs) cs).

(** Modelled from the spec: the line break in the error message below. *)
Definition newline : string := String (Ascii.ascii_of_nat 10) EmptyString.

(** Modelled from the spec: the message of the inconsistency check of
    [populate_mock] (not among the sources), as the notebook shows it. *)
Definition inconsistent_simname_error_msg (bound passed : string) : string :=
  "Inconsistency between the simname already bound to the existing mock = ``"
  +:+ bound +:+
  "`` and the simname passed as a keyword argument = ``"
  +:+ passed +:+ "``." +:+ newline +:+
  "You should instantiate a new model object if you wish to switch halo catalogs.".

(** Modelled from the spec: the simname a call of [populate_mock] (not
    among the sources) asks for: that of the catalog it is given, the
    [simname] keyword, or the default. *)
Definition requested_simname (kwargs : populate_kwargs) : string :=
  match kw_halocat kwargs with
  | Some halocat => simname halocat
  | None => default default_simname (kw_simname kwargs)
  end.

(** Modelled from the spec: the inner function of [populate_mock] shown in
    the traceback of the subhalo-modelling notebook
    ([model_factory_template.py], lines 136 to 138). *)
Definition test_consistency_with_existing_mock (mk : Mock)
    (kwargs : populate_kwargs) : result unit :=
  let simname := requested_simname kwargs in
  if decide (simname ≠ mock_simname mk) then
    Raise (HalotoolsError
             (inconsistent_simname_error_msg (mock_simname mk) simname))
  else Ok ().

(** Modelled from the spec: how [populate_mock] (not among the sources)
    gets the halo catalog of its first call: the one it is given, the fake
    simulation generated on the fly, or the cached catalog of that name,
    which has to have been downloaded. *)
Definition retrieve_catalog (w : World) (kwargs : populate_kwargs)
    : result HaloCatalog :=
  match kw_halocat kwargs with
  | Some halocat => Ok halocat
  | None =>
      let simname := requested_simname kwargs in
      if decide (simname = "fake") then Ok (FakeSim w)
      else match cache w !! simname with
           | Some halocat => Ok halocat
           | None => Raise (HalotoolsError ("no cached catalog " +:+ simname))
           end
  end.

(** Modelled from the spec: [populate_mock] of the model factories
    ([model_factory_template.py]), not among the sources; the spec names
    the inconsistency check made when switching simulation catalogs on an
    already-populated model, the notebook shows its traceback and says
    that the first call binds the halo catalog to the model and that later
    calls reuse it.  The model object is threaded through: the second
    component of the result is [self] after the call. *)
Definition populate_mock (w : World) (self : Model) (kwargs : populate_kwargs)
    : result unit * Model :=
  match mock self with
  | Some mk =>
      match test_consistency_with_existing_mock mk kwargs with
      | Raise e => (Raise e, self)
      | Ok _ =>
          match mock_population w (mock_halocat mk) (components self) with
          | Raise e => (Raise e, self)
          | Ok t =>
              (Ok (), {| model_dictionary := model_dictionary self;
                         mock := Some {| mock_simname := mock_simname mk;
                                         mock_halocat := mock_halocat mk;
                                         galaxy_table := t |} |})
          end
      end
  | None =>
      match retrieve_catalog w kwargs with
      | Raise e => (Raise e, self)
      | Ok halocat =>
          match mock_population w halocat (components self) with
          | Raise e => (Raise e, self)
          | Ok t =>
              (Ok (), {| model_dictionary := model_dictionary self;
                         mock := Some {| mock_simname := requested_simname kwargs;
                                         mock_halocat := halocat;
                                         galaxy_table := t |} |})
          end
      end
  end.

(** Modelled from the spec: a condition on the components handed to the
    factories (not among the sources).  A component keeps the columns when
    its methods, called on a table, leave the names and the order of the
    columns as they were, as a method does that writes through
    [table[name][:]]. *)
Definition keeps_columns (c : ComponentModel) : Prop :=
  ∀ name f table table',
    methods c !! name = Some f →
    f {[ "table" := table ]} = Ok table' →
    colnames table' = colnames table.
End Halotools.
Arguments ComponentModel : clear implicits.
Arguments HaloCatalog : clear implicits.
Arguments Mock : clear implicits.
Arguments Model : clear implicits.
Arguments World : clear implicits.
Arguments populate_kwargs : clear implicits.
End Halotools.

(** * The code of the halo-catalog analysis notebook *)

Module HaloCatalogAnalysis.
Section Notebook.
Context {scalar : Type} `{NumpyScalar scalar}.

Definition grouping_key : string := "halo_hostid".
Definition new_colname : string := "num_subhalos".
Definition new_coltype : string := "i4".

(** [def count_subhalos(x): return len(x)-1] *)
Definition count_subhalos (x : list scalar) : Z := Z.of_nat (length x) - 1.

(** [aggregation_function = count_subhalos].  The library applies it to
    the needed columns of a group; [count_subhalos] takes exactly one
    argument, and its Python integer becomes a numpy scalar. *)
Definition aggregation_function (args : list (list scalar)) : result scalar :=
  match args with
  | [x] => Ok (pyint (count_subhalos x))
  | _ => Raise (TypeError "count_subhalos() takes exactly 1 argument")
  end.

Definition colnames_needed_by_function : list string := ["halo_hostid"].

(** The call that closes the cell:
    [add_new_table_column(halos, new_colname, new_coltype, grouping_key,
     aggregation_function, colnames_needed_by_function)];
    the result is the table [halos] after the call. *)
Definition add_num_subhalos (halos : Table scalar) : result (Table scalar) :=
  Halotools.add_new_table_column halos new_colname new_coltype grouping_key
    aggregation_function colnames_needed_by_function.
End Notebook.
End HaloCatalogAnalysis.

(** * The code of the HOD-modelling notebook: the class [Size] *)

Module Size.
Section Size.
Context {scalar : Type} `{NumpyScalar scalar}.

(** The attributes [__init__] binds on [self]. *)
Record Size : Type := {
  gal_type : string;
  _mock_generation_calling_sequence : list string;
  _galprop_dtypes_to_allocate : list (string * string);
  list_of_haloprops_needed : list string
}.

(** [def __init__(self, gal_type)]; [np.dtype([('galsize', 'f4')])] is
    the list of its fields. *)
Definition __init__ (gal_type : string) : Size :=
  {| gal_type := gal_type;
     _mock_generation_calling_sequence := ["assign_size"];
     _galprop_dtypes_to_allocate := [("galsize", "f4")];
     list_of_haloprops_needed := ["halo_spin"] |}.

(** [def assign_size(self, **kwargs)]:
    [table = kwargs['table']] then
    [table['galsize'][:] = table['halo_spin']/5.].
    Python evaluates the right-hand side, then the target
    [table['galsize']], then stores through the slice.  The table is
    modified in place; the result is the table after the call. *)
Definition assign_size (self : Size) (kwargs : gmap string (Table scalar))
    : result (Table scalar) :=
  table ← kwargs_getitem kwargs "table";
  halo_spin ← getitem table "halo_spin";
  let quotient := (λ x, true_divide x (pyfloat 5)) <$> data halo_spin in
  galsize ← getitem table "galsize";
  galsize' ← setslice galsize quotient;
  mret (setitem table "galsize" galsize').

(** A [Size] object as the factories see it: its attributes, and its
    bound methods by name. *)
Definition component (self : Size) : Halotools.ComponentModel scalar :=
  {| Halotools.gal_type := gal_type self;
     Halotools._mock_generation_calling_sequence :=
       _mock_generation_calling_sequence self;
     Halotools._galprop_dtypes_to_allocate := _galprop_dtypes_to_allocate self;
     Halotools.list_of_haloprops_needed := list_of_haloprops_needed self;
     Halotools.methods := {[ "assign_size" := assign_size self ]} |}.
End Size.
End Size.

(** * The notebooks as documents

    For the properties that speak about the text of the cells (which names
    a cell uses, which functions and classes it defines, what its calls go
    to) the code cells are also kept as syntax trees, with the node names
    of Python's [ast] module. *)

Module Ast.

Inductive number : Type :=
| PyInt (n : Z)
| PyFloat (mantissa exponent : Z).   (* mantissa * 10 ^ exponent *)

Inductive operator : Type := Sub | Mult | Div | GtOp | EqOp.

Inductive expr : Type :=
| Name (id : string)
| Str (s : string)
| Num (n : number)
| Attribute (value : expr) (attr : string)
| Subscript (value : expr) (index : expr)
| Slice (lower upper : option expr)
| Call (func : expr) (args : list expr) (keywords : list (string * expr))
| BinOp (left : expr) (op : operator) (right : expr)
| ListE (elts : list expr)
| TupleE (elts : list expr).

Inductive stmt : Type :=
| ImportFrom (module : string) (name : string)
| Import (module : string) (asname : string)
| Assign (target : expr) (value : expr)
| FunctionDef (name : string) (args : list string) (kwarg : option string)
              (body : list stmt)
| ClassDef (name : string) (bases : list expr) (body : list stmt)
| Return (value : expr)
| Expr (value : expr)
| Delete (target : string)
| Magic (line : string) (code : list stmt).   (* [%name ...] of IPython *)

Inductive cell : Type :=
| Heading
| Markdown
| Code (input : list stmt).

Definition notebook : Type := list cell.

Definition code_cells (nb : notebook) : list (list stmt) :=
  omap (λ c, match c with Code input => Some input | _ => None end) nb.

(** [f(a, ..)] and [o.m(a, ..)] without keyword arguments. *)
Definition call (f : expr) (args : list expr) : expr := Call f args [].
Definition int (n : Z) : expr := Num (PyInt n).

(** ** What a notebook defines *)

(** The functions and methods defined in a statement, under their qualified
    names, with parameters and body. *)
Fixpoint functions_of (prefix : string) (s : stmt)
    : list (string * (list string * option string * list stmt)) :=
  match s with
  | FunctionDef name args kwarg body =>
      (prefix +:+ name, (args, kwarg, body))
        :: flat_map (functions_of (prefix +:+ name +:+ ".")) body
  | ClassDef name _ body => flat_map (functions_of (prefix +:+ name +:+ ".")) body
  | Magic _ code => flat_map (functions_of prefix) code
  | _ => []
  end.

(** The classes defined in a statement. *)
Fixpoint classes_of (s : stmt) : list string :=
  match s with
  | ClassDef name _ body => name :: flat_map classes_of body
  | FunctionDef _ _ _ body => flat_map classes_of body
  | Magic _ code => flat_map classes_of code
  | _ => []
  end.

(** The names a statement imports. *)
Fixpoint imports_of (s : stmt) : list string :=
  match s with
  | ImportFrom _ name => [name]
  | Import _ asname => [asname]
  | Magic _ code => flat_map imports_of code
  | _ => []
  end.

Definition statements (nb : notebook) : list stmt := concat (code_cells nb).

Definition defined_functions (nb : notebook) :=
  flat_map (functions_of EmptyString) (statements nb).
Definition defined_classes (nb : notebook) : list string :=
  flat_map classes_of (statements nb).
Definition imported_names (nb : notebook) : list string :=
  flat_map imports_of (statements nb).

(** The name an expression hangs from: [np] for [np.dtype(..)]. *)
Fixpoint root (e : expr) : option string :=
  match e with
  | Name id => Some id
  | Attribute v _ | Subscript v _ => root v
  | Call f _ _ => root f
  | _ => None
  end.

Definition is_atom (e : expr) : bool :=
  match e with Name _ | Str _ | Num _ => true | _ => false end.

(** A function body that only delegates: one call of something imported,
    on names and literals, returned or not. *)
Definition delegating_call (imports : list string) (e : expr) : bool :=
  match e with
  | Call f args keywords =>
      match root f with
      | Some r => bool_decide (r ∈ imports) && forallb is_atom args
                  && forallb (λ kw, is_atom kw.2) keywords
      | None => false
      end
  | _ => false
  end.

Definition delegates (imports : list string) (body : list stmt) : bool :=
  match body with
  | [Return e] | [Expr e] => delegating_call imports e
  | _ => false
  end.

(** ** Where the operations of a cell go *)

Definition builtins : list string :=
  ["print"; "len"; "object"; "abs"; "all"; "any"; "bool"; "dict"; "dir";
   "enumerate"; "float"; "getattr"; "hasattr"; "int"; "isinstance"; "iter";
   "list"; "map"; "max"; "min"; "range"; "repr"; "set"; "setattr"; "sorted";
   "str"; "sum"; "tuple"; "type"; "zip"; "True"; "False"; "None"].

(** What a name or an expression stands for: an object of an imported
    library, a Python builtin, plain data (literals and what the notebook
    computes from them), or something the notebook defined. *)
Inductive kind : Type :=
| External
| Builtin
| Data
| OwnFunction (name : string)
| OwnClass (name : string)
| OwnInstance (cls : string)
| Unbound.

#[export] Instance kind_eq_dec : EqDecision kind.
Proof. solve_decision. Defined.

Definition kind_of_name (Γ : gmap string kind) (id : string) : kind :=
  match Γ !! id with
  | Some k => k
  | None => if bool_decide (id ∈ builtins) then Builtin else Unbound
  end.

Fixpoint kind_of (Γ : gmap string kind) (e : expr) : kind :=
  match e with
  | Name id => kind_of_name Γ id
  | Str _ | Num _ | Slice _ _ | ListE _ | TupleE _ => Data
  | Attribute v _ | Subscript v _ => kind_of Γ v
  | Call f _ _ =>
      match kind_of Γ f with
      | External => External
      | OwnClass c => OwnInstance c
      | Unbound => Unbound
      | _ => Data
      end
  | BinOp l _ r =>
      match kind_of Γ l, kind_of Γ r with
      | External, _ | _, External => External
      | Unbound, _ | _, Unbound => Unbound
      | _, _ => Data
      end
  end.

(** The operations of an expression: for every call what is called, for
    every operator what it dispatches to. *)
Fixpoint operations (Γ : gmap string kind) (e : expr) : list kind :=
  match e with
  | Name _ | Str _ | Num _ => []
  | Attribute v _ => operations Γ v
  | Subscript v i => operations Γ v ++ operations Γ i
  | Slice lower upper =>
      match lower with Some l => operations Γ l | None => [] end
      ++ match upper with Some u => operations Γ u | None => [] end
  | Call f args keywords =>
      kind_of Γ f :: operations Γ f ++ flat_map (operations Γ) args
        ++ flat_map (λ '(_, v), operations Γ v) keywords
  | BinOp l _ r => kind_of Γ e :: operations Γ l ++ operations Γ r
  | ListE elts | TupleE elts => flat_map (operations Γ) elts
  end.

Definition bind_name (k : kind) (target : expr) (Γ : gmap string kind)
    : gmap string kind :=
  match target with Name id => <[id := k]> Γ | _ => Γ end.

Definition bind_target (Γ : gmap string kind) (target : expr) (k : kind)
    : gmap string kind :=
  match target with
  | TupleE elts => foldr (bind_name k) Γ elts
  | _ => bind_name k target Γ
  end.

(** The operations of the statements of a cell outside the bodies of the
    functions and classes it defines, in order, with the bindings they
    leave. *)
Fixpoint toplevel (s : stmt) (st : gmap string kind * list kind)
    : gmap string kind * list kind :=
  let '(Γ, ops) := st in
  match s with
  | ImportFrom _ name => (<[name := External]> Γ, ops)
  | Import _ asname => (<[asname := External]> Γ, ops)
  | Assign target value =>
      (bind_target Γ target (kind_of Γ value),
       ops ++ operations Γ value ++ operations Γ target)
  | FunctionDef name _ _ _ => (<[name := OwnFunction name]> Γ, ops)
  | ClassDef name bases _ =>
      (<[name := OwnClass name]> Γ, ops ++ flat_map (operations Γ) bases)
  | Return e | Expr e => (Γ, ops ++ operations Γ e)
  | Delete target => (delete target Γ, ops)
  | Magic _ code => foldl (λ st s, toplevel s st) (Γ, ops) code
  end.

Definition toplevel_operations (nb : notebook) : list kind :=
  (foldl (λ st s, toplevel s st) (∅, []) (statements nb)).2.


(** ** The columns and dtypes a notebook declares *)

(** Every call in an expression: what is called, and the positional
    arguments. *)
Fixpoint calls_in (e : expr) : list (expr * list expr) :=
  match e with
  | Name _ | Str _ | Num _ => []
  | Attribute v _ => calls_in v
  | Subscript v i => calls_in v ++ calls_in i
  | Slice lower upper =>
      match lower with Some l => calls_in l | None => [] end
      ++ match upper with Some u => calls_in u | None => [] end
  | Call f args keywords =>
      (f, args) :: calls_in f ++ flat_map calls_in args
        ++ flat_map (λ '(_, v), calls_in v) keywords
  | BinOp l _ r => calls_in l ++ calls_in r
  | ListE elts | TupleE elts => flat_map calls_in elts
  end.

(** Every call in a statement, the bodies of functions and classes
    included. *)
Fixpoint calls_of (s : stmt) : list (expr * list expr) :=
  match s with
  | Assign target value => calls_in value ++ calls_in target
  | FunctionDef _ _ _ body => flat_map calls_of body
  | ClassDef _ bases body => flat_map calls_in bases ++ flat_map calls_of body
  | Return e | Expr e => calls_in e
  | Magic _ code => flat_map calls_of code
  | _ => []
  end.

(** The names a statement binds to a string literal, alone or by unpacking
    a tuple of literals. *)
Definition string_constants_of (s : stmt) : list (string * string) :=
  match s with
  | Assign (Name id) (Str v) => [(id, v)]
  | Assign (TupleE targets) (TupleE values) =>
      omap (λ tv, match tv with
                  | (Name id, Str v) => Some (id, v)
                  | _ => None
                  end) (zip targets values)
  | _ => []
  end.

Definition string_constants (nb : notebook) : list (string * string) :=
  flat_map string_constants_of (statements nb).

(** The string an argument stands for: a literal, or a name bound to one. *)
Definition string_of (constants : list (string * string)) (e : expr)
    : option string :=
  match e with
  | Str v => Some v
  | Name id => snd <$> find (λ kv, bool_decide (kv.1 = id)) constants
  | _ => None
  end.

(** The fields of the [np.dtype([(name, type), ..])] of a notebook. *)
Definition dtype_fields (call : expr * list expr) : list (string * string) :=
  match call with
  | (Attribute (Name m) a, [ListE fields]) =>
      if bool_decide (m = "np" ∧ a = "dtype") then
        omap (λ field, match field with
                       | TupleE [Str name; Str type] => Some (name, type)
                       | _ => None
                       end) fields
      else []
  | _ => []
  end.

Definition dtype_declarations (nb : notebook) : list (string * string) :=
  flat_map dtype_fields (flat_map calls_of (statements nb)).

(** The name and the dtype of the columns a notebook has
    [add_new_table_column] add: the second and the third argument of its
    calls. *)
Definition added_column (constants : list (string * string))
    (call : expr * list expr) : list (option string * option string) :=
  match call with
  | (Name f, _ :: new_colname :: new_coltype :: _) =>
      if bool_decide (f = "add_new_table_column") then
        [(string_of constants new_colname, string_of constants new_coltype)]
      else []
  | _ => []
  end.

Definition added_columns (nb : notebook) : list (option string * option string) :=
  flat_map (added_column (string_constants nb)) (flat_map calls_of (statements nb)).

(** ** Running the cells: which names are bound

    The cells are run in order in one namespace, as the notebook kernel
    does.  The objects of the libraries are not looked into: every object
    whose class the notebook did not define is [VObject], calling it returns
    a [VObject], and it may call the functions it is given.  What is kept
    exactly is the binding of names: the module namespace, the local
    namespace of a call, the namespace of a class body, and the builtins. *)

Inductive value : Type :=
| VObject
| VFunction (args : list string) (kwarg : option string) (body : list stmt)
| VClass (name : string) (methods : list (string * value))
| VInstance (cls : value)
| VMethod (func self : value).

Inductive scope : Type :=
| ModuleScope
| FunctionScope (names : list string) (vars : gmap string value)
| ClassScope (vars : list (string * value)).

Record frame : Type := { globals : gmap string value; local : scope }.

Definition assoc {V} (key : string) (l : list (string * V)) : option V :=
  snd <$> find (λ kv, bool_decide (kv.1 = key)) l.

Definition load_global (σ : frame) (id : string) : result value :=
  match globals σ !! id with
  | Some v => Ok v
  | None => if bool_decide (id ∈ builtins) then Ok VObject
            else Raise (NameError id)
  end.

(** Reading a name.  In a function the names it assigns anywhere in its body
    are local throughout. *)
Definition load (σ : frame) (id : string) : result value :=
  match local σ with
  | ModuleScope => load_global σ id
  | FunctionScope names vars =>
      if bool_decide (id ∈ names) then
        match vars !! id with
        | Some v => Ok v
        | None => Raise (UnboundLocalError id)
        end
      else load_global σ id
  | ClassScope vars =>
      match assoc id vars with
      | Some v => Ok v
      | None => load_global σ id
      end
  end.

Definition store (σ : frame) (id : string) (v : value) : frame :=
  match local σ with
  | ModuleScope => {| globals := <[id := v]> (globals σ); local := ModuleScope |}
  | FunctionScope names vars =>
      {| globals := globals σ; local := FunctionScope names (<[id := v]> vars) |}
  | ClassScope vars =>
      {| globals := globals σ; local := ClassScope (vars ++ [(id, v)]) |}
  end.

(** [del id] *)
Definition unbind (σ : frame) (id : string) : result frame :=
  match local σ with
  | ModuleScope =>
      match globals σ !! id with
      | Some _ => Ok {| globals := delete id (globals σ); local := ModuleScope |}
      | None => Raise (NameError id)
      end
  | FunctionScope names vars =>
      match vars !! id with
      | Some _ => Ok {| globals := globals σ;
                        local := FunctionScope names (delete id vars) |}
      | None => Raise (UnboundLocalError id)
      end
  | ClassScope vars =>
      match assoc id vars with
      | Some _ => Ok {| globals := globals σ;
                        local := ClassScope
                                   (filter (λ kv, kv.1 ≠ id) vars) |}
      | None => Raise (NameError id)
      end
  end.

Definition target_names (target : expr) : list string :=
  match target with
  | Name id => [id]
  | TupleE elts => omap (λ e, match e with Name id => Some id | _ => None end) elts
  | _ => []
  end.

(** The names a statement binds in the namespace it runs in. *)
Fixpoint assigned (s : stmt) : list string :=
  match s with
  | Assign target _ => target_names target
  | FunctionDef name _ _ _ | ClassDef name _ _ => [name]
  | ImportFrom _ name | Import _ name => [name]
  | Delete target => [target]
  | Magic _ code => flat_map assigned code
  | _ => []
  end.

(** [o.attr]: a method of the class of an instance comes out bound. *)
Definition getattr (o : value) (attr : string) : value :=
  match o with
  | VInstance (VClass _ methods) =>
      match assoc attr methods with
      | Some f => VMethod f o
      | None => VObject
      end
  | VClass _ methods => default VObject (assoc attr methods)
  | _ => VObject
  end.

Inductive signal : Type :=
| Next (σ : frame)
| Returned (v : value).

Section Block.
Context (exec : frame → stmt → result signal).

Fixpoint exec_block (σ : frame) (body : list stmt) : result signal :=
  match body with
  | [] => Ok (Next σ)
  | s :: body' =>
      r ← exec σ s;
      match r with
      | Next σ' => exec_block σ' body'
      | Returned v => Ok (Returned v)
      end
  end.
End Block.

(** [fuel] bounds the depth of nested evaluation; running out of it is
    Python's [RecursionError]. *)
Fixpoint eval (fuel : nat) (σ : frame) (e : expr) {struct fuel} : result value :=
  match fuel with
  | 0 => Raise RecursionError
  | S fuel =>
      match e with
      | Name id => load σ id
      | Str _ | Num _ => Ok VObject
      | Attribute v attr => o ← eval fuel σ v; mret (getattr o attr)
      | Subscript v i =>
          _ ← eval fuel σ v; _ ← eval fuel σ i; mret VObject
      | Slice lower upper =>
          _ ← match lower with Some l => eval fuel σ l | None => Ok VObject end;
          _ ← match upper with Some u => eval fuel σ u | None => Ok VObject end;
          mret VObject
      | Call f args keywords =>
          vf ← eval fuel σ f;
          vargs ← mapM (eval fuel σ) args;
          vkws ← mapM (λ kw, eval fuel σ kw.2) keywords;
          apply fuel σ vf vargs vkws
      | BinOp l _ r =>
          _ ← eval fuel σ l; _ ← eval fuel σ r; mret VObject
      | ListE elts | TupleE elts =>
          _ ← mapM (eval fuel σ) elts; mret VObject
      end
  end

(** Calling [f] on positional and keyword arguments. *)
with apply (fuel : nat) (σ : frame) (f : value) (args kws : list value)
    {struct fuel} : result value :=
  match fuel with
  | 0 => Raise RecursionError
  | S fuel =>
      match f with
      | VObject =>
          (* a callable of a library: it may call the functions it is given *)
          _ ← mapM (λ v, match v with
                         | VFunction params _ _ =>
                             apply fuel σ v ((λ _, VObject) <$> params) []
                         | _ => Ok VObject
                         end) (args ++ kws);
          mret VObject
      | VFunction params kwarg body =>
          if bool_decide (length args = length params
                          ∧ (kws = [] ∨ is_Some kwarg)) then
            let names := params ++ option_list kwarg ++ flat_map assigned body in
            let vars := list_to_map (zip params args
                                     ++ ((λ k, (k, VObject)) <$> option_list kwarg)) in
            r ← exec_block (exec fuel)
                  {| globals := globals σ; local := FunctionScope names vars |} body;
            match r with
            | Next _ => mret VObject
            | Returned v => mret v
            end
          else Raise (TypeError "wrong number of arguments")
      | VMethod func self => apply fuel σ func (self :: args) kws
      | VClass _ methods =>
          let instance := VInstance f in
          match assoc "__init__" methods with
          | Some init => _ ← apply fuel σ init (instance :: args) kws; mret instance
          | None => mret instance
          end
      | VInstance _ => Raise (TypeError "object is not callable")
      end
  end

with exec (fuel : nat) (σ : frame) (s : stmt) {struct fuel} : result signal :=
  match fuel with
  | 0 => Raise RecursionError
  | S fuel =>
      match s with
      | ImportFrom _ name => Ok (Next (store σ name VObject))
      | Import _ asname => Ok (Next (store σ asname VObject))
      | Assign target value =>
          v ← eval fuel σ value;
          match target with
          | Name id => Ok (Next (store σ id v))
          | TupleE elts =>
              Ok (Next (foldl (λ σ id, store σ id VObject) σ (target_names target)))
          | Attribute o _ => _ ← eval fuel σ o; Ok (Next σ)
          | Subscript o i => _ ← eval fuel σ o; _ ← eval fuel σ i; Ok (Next σ)
          | _ => Raise (TypeError "cannot assign")
          end
      | FunctionDef name args kwarg body =>
          Ok (Next (store σ name (VFunction args kwarg body)))
      | ClassDef name bases body =>
          _ ← mapM (eval fuel σ) bases;
          r ← exec_block (exec fuel)
                {| globals := globals σ; local := ClassScope [] |} body;
          match r with
          | Next {| local := ClassScope vars |} =>
              Ok (Next (store σ name (VClass name vars)))
          | _ => Raise (TypeError "return outside function")
          end
      | Return value => v ← eval fuel σ value; Ok (Returned v)
      | Expr value => _ ← eval fuel σ value; Ok (Next σ)
      | Delete target => σ' ← unbind σ target; Ok (Next σ')
      | Magic _ code => exec_block (exec fuel) σ code
      end
  end.

(** One cell: the statements run until one raises; what was bound before
    stays bound. *)
Fixpoint run_cell (fuel : nat) (σ : frame) (input : list stmt)
    : frame * option exn :=
  match input with
  | [] => (σ, None)
  | s :: input' =>
      match exec fuel σ s with
      | Ok (Next σ') => run_cell fuel σ' input'
      | Ok (Returned _) => (σ, Some (TypeError "return outside function"))
      | Raise e => (σ, Some e)
      end
  end.

(** The code cells run in order, from a fresh kernel.  The result lists the
    cells that raised, by their position among the code cells (from 1), with
    the exception. *)
Fixpoint run_cells (fuel : nat) (σ : frame) (n : nat) (cells : list (list stmt))
    : list (nat * exn) :=
  match cells with
  | [] => []
  | input :: cells' =>
      let '(σ', raised) := run_cell fuel σ input in
      match raised with
      | Some e => (n, e) :: run_cells fuel σ' (S n) cells'
      | None => run_cells fuel σ' (S n) cells'
      end
  end.

Definition run_notebook (fuel : nat) (nb : notebook) : list (nat * exn) :=
  run_cells fuel {| globals := ∅; local := ModuleScope |} 1 (code_cells nb).

End Ast.

Module Notebooks.
Import Ast.

(** ** halo_catalog_analysis_tutorial1: halo properties as a function of
       host halo mass *)
Definition halo_catalog_analysis : notebook := [
  Heading;
  Markdown;
  Heading;
  Code [
    ImportFrom "halotools.sim_manager" "CachedHaloCatalog";
    Assign (Name "halocat") (call (Name "CachedHaloCatalog") []);
    Expr (call (Name "print")
            [Subscript (Attribute (Name "halocat") "halo_table")
                       (Slice (Some (int 0)) (Some (int 9)))])
  ];
  Markdown;
  Code [
    Assign (Name "mask")
      (BinOp (Subscript (Attribute (Name "halocat") "halo_table") (Str "halo_mpeak"))
             GtOp
             (BinOp (int 1000) Mult (Attribute (Name "halocat") "particle_mass")));
    Assign (Name "halos")
      (Subscript (Attribute (Name "halocat") "halo_table") (Name "mask"))
  ];
  Heading;
  Markdown;
  Code [
    ImportFrom "halotools.utils" "add_new_table_column";
    Assign (Name "grouping_key") (Str "halo_hostid");
    Assign (TupleE [Name "new_colname"; Name "new_coltype"])
           (TupleE [Str "num_subhalos"; Str "i4"]);
    FunctionDef "count_subhalos" ["x"] None [
      Return (BinOp (call (Name "len") [Name "x"]) Sub (int 1))
    ];
    Assign (Name "aggregation_function") (Name "count_subhalos");
    Assign (Name "colnames_needed_by_function") (ListE [Str "halo_hostid"]);
    Expr (call (Name "add_new_table_column")
            [Name "halos"; Name "new_colname"; Name "new_coltype";
             Name "grouping_key"; Name "aggregation_function";
             Name "colnames_needed_by_function"])
  ];
  Markdown;
  Heading;
  Markdown;
  Code [
    ImportFrom "halotools.mock_observables" "mean_y_vs_x";
    Import "numpy" "np";
    Assign (Name "hostmask")
      (BinOp (Subscript (Name "halos") (Str "halo_upid")) EqOp (int (-1)));
    Assign (Name "hosts") (Subscript (Name "halos") (Name "hostmask"));
    Assign (Name "bins")
      (call (Attribute (Name "np") "logspace")
            [Num (PyFloat 125 (-1)); Num (PyFloat 145 (-1)); int 25]);
    Assign (Name "result")
      (Call (Name "mean_y_vs_x")
            [Attribute (Subscript (Name "hosts") (Str "halo_mvir_host_halo")) "data";
             Attribute (Subscript (Name "hosts") (Str "num_subhalos")) "data"]
            [("bins", Name "bins"); ("error_estimator", Str "variance")]);
    Assign (TupleE [Name "host_mass"; Name "mean_richness"; Name "richness_variance"])
           (Name "result")
  ];
  Heading;
  Code [
    Magic "matplotlib inline" [];
    ImportFrom "seaborn" "plt"
  ];
  Code [
    Expr (Call (Attribute (Name "plt") "errorbar")
            [Name "host_mass"; Name "mean_richness"]
            [("yerr", Name "richness_variance"); ("fmt", Str "none");
             ("ecolor", Str "gray")]);
    Expr (Call (Attribute (Name "plt") "plot")
            [Name "host_mass"; Name "mean_richness"; Str "D"]
            [("color", Str "k")]);
    Expr (call (Attribute (Name "plt") "loglog") []);
    Expr (Call (Attribute (Name "plt") "xticks") [] [("size", int 18)]);
    Expr (Call (Attribute (Name "plt") "yticks") [] [("size", int 18)]);
    Expr (Call (Attribute (Name "plt") "xlabel")
            [Str "$M_{\rm halo}/M_{\odot}$"] [("fontsize", int 25)]);
    Expr (Call (Attribute (Name "plt") "ylabel")
            [Str "$\langle N_{\rm sub}\rangle$"] [("fontsize", int 25)]);
    Expr (Call (Attribute (Name "plt") "ylim") []
            [("ymin", int 1); ("ymax", int 100)]);
    Expr (Call (Attribute (Name "plt") "xlim") []
            [("xmin", Num (PyFloat 1 12)); ("xmax", Num (PyFloat 5 14))])
  ];
  Code []
].

(** ** The HOD-modelling notebook (Example 3: an HOD-style model with a
       feature of your own creation) *)
Definition hod_modeling : notebook := [
  Markdown;
  Markdown;
  Markdown;
  Code [
    ClassDef "Size" [Name "object"] [
      FunctionDef "__init__" ["self"; "gal_type"] None [
        Assign (Attribute (Name "self") "gal_type") (Name "gal_type");
        Assign (Attribute (Name "self") "_mock_generation_calling_sequence")
               (ListE [Str "assign_size"]);
        Assign (Attribute (Name "self") "_galprop_dtypes_to_allocate")
               (call (Attribute (Name "np") "dtype")
                     [ListE [TupleE [Str "galsize"; Str "f4"]]]);
        Assign (Attribute (Name "self") "list_of_haloprops_needed")
               (ListE [Str "halo_spin"])
      ];
      FunctionDef "assign_size" ["self"] (Some "kwargs") [
        Assign (Name "table") (Subscript (Name "kwargs") (Str "table"));
        Assign (Subscript (Subscript (Name "table") (Str "galsize")) (Slice None None))
               (BinOp (Subscript (Name "table") (Str "halo_spin")) Div
                      (Num (PyFloat 5 0)))
      ]
    ]
  ];
  Code [
    Assign (Name "cen_size") (call (Name "Size") [Str "centrals"]);
    Assign (Name "sat_size") (call (Name "Size") [Str "satellites"]);
    ImportFrom "halotools.empirical_models" "PrebuiltHodModelFactory";
    ImportFrom "halotools.empirical_models" "HodModelFactory";
    Assign (Name "zheng_model") (call (Name "PrebuiltHodModelFactory") [Str "zheng07"]);
    Assign (Name "new_model")
      (Call (Name "HodModelFactory") []
            [("baseline_model_instance", Name "zheng_model");
             ("centrals_size", Name "cen_size");
             ("satellites_size", Name "sat_size")])
  ];
  Markdown;
  Markdown;
  Code [
    ImportFrom "halotools.sim_manager" "CachedHaloCatalog";
    Assign (Name "halocat")
      (Call (Name "CachedHaloCatalog") []
            [("simname", Str "bolshoi"); ("redshift", int 0)]);
    Expr (call (Attribute (Name "new_model") "populate_mock") [Name "halocat"])
  ];
  Markdown;
  Code [
    Expr (call (Attribute (Attribute (Name "new_model") "mock") "populate") [])
  ];
  Code [
    Magic "timeit"
      [Expr (call (Attribute (Attribute (Name "new_model") "mock") "populate") [])]
  ];
  Markdown;
  Code [
    Expr (call (Name "print")
            [call (Attribute
                     (Attribute (Attribute (Name "new_model") "mock") "galaxy_table")
                     "keys") []])
  ];
  Code [
    Expr (call (Name "print")
            [Subscript
               (Subscript
                  (Attribute (Attribute (Name "new_model") "mock") "galaxy_table")
                  (Str "galsize"))
               (Slice (Some (int (-5))) None)])
  ];
  Markdown;
  Code []
].

(** ** subhalo_modeling_tutorial1 (Example 1: building a simple
       subhalo-based model) *)
Definition populate_mock_call (simname : string) : expr :=
  Call (Attribute (Name "model_instance") "populate_mock") []
       [("simname", Str simname)].

Definition print_galaxy_table : stmt :=
  Expr (call (Name "print")
          [Subscript
             (Attribute (Attribute (Name "model_instance") "mock") "galaxy_table")
             (Slice (Some (int 0)) (Some (int 5)))]).

Definition subhalo_modeling : notebook := [
  Markdown;
  Markdown;
  Markdown;
  Code [
    ImportFrom "halotools.empirical_models" "SubhaloModelFactory";
    ImportFrom "halotools.empirical_models" "Behroozi10SmHm";
    Assign (Name "sm_model")
      (Call (Name "Behroozi10SmHm") [] [("redshift", int 0)]);
    Assign (Name "model_instance")
      (Call (Name "SubhaloModelFactory") [] [("stellar_mass", Name "sm_model")])
  ];
  Markdown;
  Code [ Expr (populate_mock_call "fake") ];
  Markdown;
  Code [ Expr (populate_mock_call "bolshoi") ];
  Markdown;
  Code [
    Delete "model_instance";
    Assign (Name "model_instance")
      (Call (Name "SubhaloModelFactory") [] [("stellar_mass", Name "sm_model")])
  ];
  Code [ Expr (populate_mock_call "bolshoi") ];
  Markdown;
  Code [ Expr (populate_mock_call "bolshoi") ];
  Code [ Magic "timeit" [Expr (populate_mock_call "bolshoi")] ];
  Markdown;
  Code [ print_galaxy_table ];
  Markdown;
  Heading;
  Markdown;
  Code [
    Assign (Name "sm_model")
      (Call (Name "Behroozi10SmHm") [] [("redshift", int 0)]);
    Assign (Name "model_instance")
      (Call (Name "SubhaloModelFactory") [] [("mstar", Name "sm_model")])
  ];
  Code [ Expr (populate_mock_call "fake") ];
  Code [ print_galaxy_table ];
  Code []
].

End Notebooks.

(** * The documentation page *)

Module Rst.

(** A reStructuredText page, as its lines. *)
Definition page : Type := list string.

(** [docs/.../halo_catalog_analysis_tutorial.rst], the page that follows the
    subhalo-modelling notebook in the sources. *)
Definition halo_catalog_analysis_tutorial : page := [
  ".. _halo_catalog_analysis_tutorial:";
  EmptyString;
  "**********************************************************************";
  "Tutorials on analyzing halo catalogs ";
  "**********************************************************************";
  EmptyString;
  "By following this tutorial, you will learn how to use Halotools to ";
  "analyze a halo catalog. We will proceed by giving a series of ";
  "increasingly complex examples. Each example is in principle stand-alone, ";
  "so that you can pick and choose from any of the pages below according to ";
  "the kind of analysis you are most interested in. ";
  "In cases where material covered in a previous example is necessary ";
  "to understand some aspect of one of the more complicated later calculations, ";
  "a link to the previous example will always be provided. ";
  EmptyString;
  "Basic examples";
  "===================";
  "Each of the examples in this section gives a specific demonstration of how to perform a ";
  "straightforward calculation on a halo catalog. By reading through ";
  "these examples, you will gain a working knowledge of all the major functions ";
  "in the `~halotools.mock_observables` package. ";
  EmptyString;
  "halo properties as a function of halo mass";
  "-------------------------------------------------";
  EmptyString;
  ".. toctree::";
  "   :maxdepth: 1";
  EmptyString;
  "   basic_examples/halo_catalog_analysis_tutorial1"
].

Definition space : ascii := Ascii.ascii_of_nat 32.

Fixpoint lstrip (s : string) : string :=
  match s with
  | String a s' => if decide (a = space) then lstrip s' else s
  | EmptyString => EmptyString
  end.

Definition strip (s : string) : string :=
  String.rev (lstrip (String.rev (lstrip s))).

Definition is_blank (s : string) : bool := bool_decide (lstrip s = EmptyString).

Definition indented (s : string) : bool :=
  match s with
  | String a _ => bool_decide (a = space)
  | EmptyString => false
  end.

(** The body of a directive: the lines after it up to the first line that is
    neither blank nor indented. *)
Fixpoint directive_body (lines : list string) : list string :=
  match lines with
  | [] => []
  | l :: lines' =>
      if is_blank l || indented l then l :: directive_body lines' else []
  end.

Definition is_option (s : string) : bool :=
  match lstrip s with
  | String a _ => bool_decide (a = Ascii.ascii_of_nat 58)   (* a colon *)
  | EmptyString => false
  end.

(** The entries of the [toctree] directives of a page: the lines of their
    bodies that are neither blank nor options such as [:maxdepth: 1]. *)
Fixpoint toctree_entries (lines : page) : list string :=
  match lines with
  | [] => []
  | l :: lines' =>
      if bool_decide (strip l = ".. toctree::") then
        (strip <$> filter (λ l, ¬ is_blank l ∧ ¬ is_option l) (directive_body lines'))
          ++ toctree_entries lines'
      else toctree_entries lines'
  end.

(** An index page is a page with a table of contents. *)
Definition is_index_page (p : page) : bool :=
  bool_decide (Exists (λ l, strip l = ".. toctree::") p).

End Rst.

(** * The repository *)

Module Repository.

Inductive document : Type :=
| NotebookDoc (nb : Ast.notebook)
| RstPage (p : Rst.page).

(** The source files with the documents each holds, in order. *)
Definition files : list (string * list document) := [
  ("docs/notebooks/halocat_analysis/halo_catalog_analysis_tutorial1.ipynb",
   [NotebookDoc Notebooks.halo_catalog_analysis;
    NotebookDoc Notebooks.hod_modeling]);
  ("docs/notebooks/subhalo_modeling/subhalo_modeling_tutorial1.ipynb",
   [NotebookDoc Notebooks.subhalo_modeling;
    RstPage Rst.halo_catalog_analysis_tutorial])
].

Definition documents : list document := flat_map snd files.

Definition notebooks : list Ast.notebook :=
  omap (λ d, match d with NotebookDoc nb => Some nb | _ => None end) documents.

Definition pages : list Rst.page :=
  omap (λ d, match d with RstPage p => Some p | _ => None end) documents.

Definition index_pages : list Rst.page :=
  filter (λ p, Rst.is_index_page p = true) pages.

End Repository.

(** * An instance of the scalars: integers and IEEE 754 floats

    The cells of the integer dtypes are integers, stored with wrap-around;
    the cells of the float dtypes are binary floats ([spec_float]), divided
    in double precision and rounded to single precision when stored in an
    [f4] column.  This instance runs the examples below; the properties hold
    for any instance. *)

Module Numpy.

Inductive npscalar : Type :=
| NpInt (n : Z)
| NpFloat (f : spec_float).

#[export] Instance spec_float_eq_dec : EqDecision spec_float.
Proof. solve_decision. Defined.
#[export] Instance npscalar_eq_dec : EqDecision npscalar.
Proof. solve_decision. Defined.

Definition float64_of_Z (n : Z) : spec_float := binary_normalize 53 1024 n 0 false.

Definition round_float32 (f : spec_float) : spec_float :=
  match f with
  | S754_finite s m e => binary_normalize 24 128 (cond_Zopp s (Z.pos m)) e s
  | _ => f
  end.

Definition to_float (v : npscalar) : spec_float :=
  match v with
  | NpInt n => float64_of_Z n
  | NpFloat f => f
  end.

(** Truncation towards zero; what is not a finite number becomes the least
    integer of the dtype on storing. *)
Definition to_Z (v : npscalar) : Z :=
  match v with
  | NpInt n => n
  | NpFloat (S754_finite s m e) =>
      cond_Zopp s (if (0 <=? e)%Z then Z.pos m * 2 ^ e else Z.pos m / 2 ^ (- e))%Z
  | NpFloat (S754_zero _) => 0
  | NpFloat _ => - 2 ^ 63
  end.

Definition wrap (bits : Z) (n : Z) : Z :=
  ((n + 2 ^ (bits - 1)) mod 2 ^ bits - 2 ^ (bits - 1))%Z.

Definition np_astype (dt : string) (v : npscalar) : npscalar :=
  if decide (dt = "i4") then NpInt (wrap 32 (to_Z v))
  else if decide (dt = "i8") then NpInt (wrap 64 (to_Z v))
  else if decide (dt = "f4") then NpFloat (round_float32 (to_float v))
  else if decide (dt = "f8") then NpFloat (to_float v)
  else v.

#[export] Instance npscalar_ops : NumpyScalar npscalar := {
  astype := np_astype;
  true_divide := λ a b, NpFloat (SFdiv 53 1024 (to_float a) (to_float b));
  pyint := NpInt;
  pyfloat := λ n, NpFloat (float64_of_Z n)
}.

(** [m * 2 ^ e] as a float cell. *)
Definition flt (m : positive) (e : Z) : npscalar := NpFloat (S754_finite false m e).

(** A halo table of four halos: halo 1 hosts the subhalos 2 and 4, halo 3
    hosts none. *)
Definition four_halos : Table npscalar := [
  ("halo_id", {| dtype := "i8"; data := [NpInt 1; NpInt 2; NpInt 3; NpInt 4] |});
  ("halo_upid", {| dtype := "i8"; data := [NpInt (-1); NpInt 1; NpInt (-1); NpInt 1] |});
  ("halo_hostid", {| dtype := "i8"; data := [NpInt 1; NpInt 1; NpInt 3; NpInt 1] |});
  ("halo_spin", {| dtype := "f4"; data := [flt 1 0; flt 1 (-1); flt 5 (-3); flt 1 (-4)] |})
].

Definition two_halos : Table npscalar := [
  ("halo_id", {| dtype := "i8"; data := [NpInt 7; NpInt 8] |});
  ("halo_upid", {| dtype := "i8"; data := [NpInt (-1); NpInt 7] |});
  ("halo_hostid", {| dtype := "i8"; data := [NpInt 7; NpInt 7] |});
  ("halo_spin", {| dtype := "f4"; data := [flt 5 0; flt 5 (-1)] |})
].

(** A small world: the catalog made on the fly, and [bolshoi] in the cache;
    a galaxy for each halo of the catalog. *)
Definition world : Halotools.World npscalar := {|
  Halotools.FakeSim := {| Halotools.simname := "fake"; Halotools.halo_table := two_halos |};
  Halotools.cache :=
    {[ "bolshoi" := {| Halotools.simname := "bolshoi";
                       Halotools.halo_table := four_halos |} ]};
  Halotools.seed_table := λ halocat _, Halotools.halo_table halocat
|}.


(** The galaxy tables the factory hands to the components of a model with
    one [Size] component, and what the component makes of them. *)
Definition cen_size : Halotools.ComponentModel npscalar :=
  Size.component (Size.__init__ "centrals").

Definition galsize_column (cells : list npscalar) : string * Column npscalar :=
  ("galsize", {| dtype := "f4"; data := cells |}).

Definition two_galaxies_allocated : Table npscalar :=
  two_halos ++ [galsize_column [NpFloat (S754_zero false); NpFloat (S754_zero false)]].

Definition two_galaxies : Table npscalar :=
  two_halos ++ [galsize_column [flt 8388608 (-23); flt 8388608 (-24)]].


Definition simname_kwarg (simname : string) : Halotools.populate_kwargs npscalar :=
  {| Halotools.kw_simname := Some simname; Halotools.kw_halocat := None |}.

(** The mock and the model after [populate_mock(simname = 'fake')]. *)
Definition fake_mock : Halotools.Mock npscalar :=
  {| Halotools.mock_simname := "fake";
     Halotools.mock_halocat := Halotools.FakeSim world;
     Halotools.galaxy_table := two_galaxies |}.

Definition fake_populated (keyword : string) : Halotools.Model npscalar :=
  {| Halotools.model_dictionary := [(keyword, cen_size)];
     Halotools.mock := Some fake_mock |}.

End Numpy.

(** * The selections of the halo-catalog analysis notebook

    Two cells of the notebook select rows of a table with a boolean mask
    computed from one of its columns: the halos above a thousand particles
    ([halocat.halo_table[mask]]) and, among them, the host halos
    ([halos[hostmask]]).  The comparison and the product of numpy scalars
    are parameters, as the division is. *)

Class NumpyCompare (scalar : Type) := {
  greater : scalar → scalar → bool;      (* [>] *)
  equal : scalar → scalar → bool;        (* [==] *)
  multiply : scalar → scalar → scalar    (* [*] *)
}.

Module HaloSelection.
Section Selection.
Context {scalar : Type} `{NumpyScalar scalar} `{NumpyCompare scalar}.

(** [array[mask]] on one column: the cells where the mask holds.  The masks
    of the notebook are computed from a column of the table they select
    from, so they have the length of its columns. *)
Fixpoint compress {A} (mask : list bool) (cells : list A) : list A :=
  match mask, cells with
  | b :: mask', x :: cells' =>
      if b then x :: compress mask' cells' else compress mask' cells'
  | _, _ => []
  end.

(** [table[mask]]: a new table with the rows where the mask holds, every
    column keeping its name, its place and its dtype. *)
Definition getitem_mask (t : Table scalar) (mask : list bool) : Table scalar :=
  (λ kc, (kc.1, {| dtype := dtype kc.2; data := compress mask (data kc.2) |})) <$> t.

(** The attributes of the halo catalog that the cells read. *)
Record CachedHaloCatalog : Type := {
  halo_table : Table scalar;
  particle_mass : scalar
}.

(** [mask = halocat.halo_table['halo_mpeak'] > 1000*halocat.particle_mass] *)
Definition mask (halocat : CachedHaloCatalog) : result (list bool) :=
  halo_mpeak ← getitem (halo_table halocat) "halo_mpeak";
  let threshold := multiply (pyint 1000) (particle_mass halocat) in
  mret ((λ x, greater x threshold) <$> data halo_mpeak).

(** [halos = halocat.halo_table[mask]] *)
Definition halos (halocat : CachedHaloCatalog) : result (Table scalar) :=
  mask ← mask halocat;
  mret (getitem_mask (halo_table halocat) mask).

(** [hostmask = halos['halo_upid'] == -1] *)
Definition hostmask (halos : Table scalar) : result (list bool) :=
  halo_upid ← getitem halos "halo_upid";
  mret ((λ x, equal x (pyint (-1))) <$> data halo_upid).

(** [hosts = halos[hostmask]] *)
Definition hosts (halos : Table scalar) : result (Table scalar) :=
  hostmask ← hostmask halos;
  mret (getitem_mask halos hostmask).

(** The two arrays the cell hands to [mean_y_vs_x], in the order it
    evaluates them: [hosts['halo_mvir_host_halo'].data] and
    [hosts['num_subhalos'].data]. *)
Definition mean_y_vs_x_arrays (hosts : Table scalar)
    : result (list scalar * list scalar) :=
  halo_mvir_host_halo ← getitem hosts "halo_mvir_host_halo";
  num_subhalos ← getitem hosts "num_subhalos";
  mret (data halo_mvir_host_halo, data num_subhalos).
End Selection.
Arguments CachedHaloCatalog : clear implicits.
End HaloSelection.

(** The comparison and the product of the instance of integers and floats,
    and a small catalog to run the selections on. *)
Module NumpySelection.
Import Numpy.

(** The double with the value of a cell, in its canonical form. *)
Definition to_double (v : npscalar) : spec_float :=
  match to_float v with
  | S754_finite s m e => binary_normalize 53 1024 (cond_Zopp s (Z.pos m)) e s
  | f => f
  end.

Definition np_greater (a b : npscalar) : bool :=
  match a, b with
  | NpInt m, NpInt n => (n <? m)%Z
  | _, _ => SFltb (to_double b) (to_double a)
  end.

Definition np_equal (a b : npscalar) : bool :=
  match a, b with
  | NpInt m, NpInt n => (m =? n)%Z
  | _, _ => SFeqb (to_double a) (to_double b)
  end.

Definition np_multiply (a b : npscalar) : npscalar :=
  match a, b with
  | NpInt m, NpInt n => NpInt (m * n)
  | _, _ => NpFloat (SFmul 53 1024 (to_float a) (to_float b))
  end.

#[export] Instance npscalar_compare : NumpyCompare npscalar := {
  greater := np_greater;
  equal := np_equal;
  multiply := np_multiply
}.

(** Five halos with particles of mass one: halo 1 (mass 4096) hosts the
    subhalos 2 (mass 512, below the cut) and 3 (mass 2048); halo 4 (mass
    1500) hosts none; halo 5 (mass 800) is below the cut. *)
Definition five_halos : Table npscalar := [
  ("halo_id", {| dtype := "i8";
                 data := [NpInt 1; NpInt 2; NpInt 3; NpInt 4; NpInt 5] |});
  ("halo_upid", {| dtype := "i8";
                   data := [NpInt (-1); NpInt 1; NpInt 1; NpInt (-1); NpInt (-1)] |});
  ("halo_hostid", {| dtype := "i8";
                     data := [NpInt 1; NpInt 1; NpInt 1; NpInt 4; NpInt 5] |});
  ("halo_mpeak", {| dtype := "f4";
                    data := [flt 1 12; flt 1 9; flt 1 11; flt 375 2; flt 25 5] |});
  ("halo_mvir_host_halo", {| dtype := "f4";
                             data := [flt 1 12; flt 1 12; flt 1 12; flt 375 2;
                                      flt 25 5] |})
].

Definition five_halo_catalog : HaloSelection.CachedHaloCatalog npscalar :=
  {| HaloSelection.halo_table := five_halos;
     HaloSelection.particle_mass := flt 1 0 |}.

(** The halos above the cut, with the column the halo-catalog notebook
    adds. *)
Definition three_halos : Table npscalar := [
  ("halo_id", {| dtype := "i8"; data := [NpInt 1; NpInt 3; NpInt 4] |});
  ("halo_upid", {| dtype := "i8"; data := [NpInt (-1); NpInt 1; NpInt (-1)] |});
  ("halo_hostid", {| dtype := "i8"; data := [NpInt 1; NpInt 1; NpInt 4] |});
  ("halo_mpeak", {| dtype := "f4"; data := [flt 1 12; flt 1 11; flt 375 2] |});
  ("halo_mvir_host_halo", {| dtype := "f4";
                             data := [flt 1 12; flt 1 12; flt 375 2] |});
  ("num_subhalos", {| dtype := "i4"; data := [NpInt 1; NpInt 1; NpInt 0] |})
].

End NumpySelection.

(** * Properties *)

Import Halotools.

(** Unfolds the monad of results. *)
Ltac result_simpl :=
  repeat (progress (unfold mret, mbind, fmap, result_ret, result_bind, result_fmap in *;
                    simpl in *)).

Section TableFacts.
Context {scalar : Type}.
Implicit Types (t : Table scalar) (c : Column scalar) (name : string).

Lemma getitem_setitem t name c : getitem (setitem t name c) name = Ok c.
Proof.
  induction t as [|[k c0] t IH]; simpl.
  - by rewrite decide_True.
  - destruct (decide (k = name)); simpl.
    + by rewrite decide_True.
    + by rewrite decide_False.
Qed.

Lemma getitem_setitem_ne t name name' c :
  name ≠ name' → getitem (setitem t name c) name' = getitem t name'.
Proof.
  intros Hne. induction t as [|[k c0] t IH]; simpl.
  - by rewrite decide_False.
  - destruct (decide (k = name)) as [->|]; simpl.
    + by rewrite !decide_False.
    + by rewrite IH.
Qed.

Lemma getitem_ok_colnames t name c : getitem t name = Ok c → name ∈ colnames t.
Proof.
  induction t as [|[k c0] t IH]; simpl; [done|].
  destruct (decide (k = name)) as [->|]; intros Hget.
  - apply list_elem_of_here.
  - apply list_elem_of_further, IH, Hget.
Qed.

Lemma colnames_getitem t name : name ∈ colnames t → ∃ c, getitem t name = Ok c.
Proof.
  induction t as [|[k c0] t IH]; simpl.
  - intros Hin. by apply elem_of_nil in Hin.
  - intros Hin. destruct (decide (k = name)) as [->|Hne]; [by eexists|].
    apply elem_of_cons in Hin as [->|Hin]; [done|]. by apply IH.
Qed.

(** Storing under a name the table has keeps the columns where they are. *)
Lemma colnames_setitem_bound t name c :
  name ∈ colnames t → colnames (setitem t name c) = colnames t.
Proof.
  unfold colnames. induction t as [|[k c0] t IH]; simpl.
  - intros Hin. by apply elem_of_nil in Hin.
  - intros Hin. destruct (decide (k = name)) as [->|Hne]; simpl; [done|].
    apply elem_of_cons in Hin as [->|Hin]; [done|].
    f_equal. by apply IH.
Qed.

(** Storing under a new name appends the column. *)
Lemma colnames_setitem_fresh t name c :
  name ∉ colnames t → colnames (setitem t name c) = colnames t ++ [name].
Proof.
  unfold colnames. induction t as [|[k c0] t IH]; simpl; [done|].
  intros Hnin. apply not_elem_of_cons in Hnin as [Hne Hnin].
  rewrite decide_False by done. simpl. f_equal. by apply IH.
Qed.

Lemma elem_of_colnames_setitem t name c n :
  n ∈ colnames (setitem t name c) ↔ n ∈ colnames t ∨ n = name.
Proof.
  destruct (decide (name ∈ colnames t)) as [Hin|Hnin].
  - rewrite colnames_setitem_bound by done.
    split; [by left | by intros [?| ->]].
  - rewrite colnames_setitem_fresh by done. rewrite elem_of_app, list_elem_of_singleton.
    done.
Qed.

(** In a well-formed table every column has the length of the table. *)
Lemma getitem_length t name c :
  table_ok t → getitem t name = Ok c → length (data c) = nrows t.
Proof.
  intros [_ Hlen]. revert Hlen. generalize (nrows t). intros n Hlen.
  induction Hlen as [|[k c0] t' Hk Hlen IH]; simpl; [done|].
  destruct (decide (k = name)); [|done]. by intros [= <-].
Qed.
End TableFacts.

Section ResultFacts.
Context {A B : Type}.

(** A function that never raises maps over a list without raising. *)
Lemma mapM_ok (f : A → result B) (g : A → B) (l : list A) :
  (∀ x, x ∈ l → f x = Ok (g x)) → mapM f l = Ok (g <$> l).
Proof.
  induction l as [|x l IH]; intros Hf; [done|].
  simpl. rewrite Hf by apply list_elem_of_here.
  result_simpl. rewrite IH; [done|].
  intros y Hy. apply Hf. by apply list_elem_of_further.
Qed.
End ResultFacts.

(** ** The class [Size] *)

Section SizeFacts.
Context {scalar : Type} `{NumpyScalar scalar}.
Implicit Types (table : Table scalar) (self : Size.Size).

(** What [assign_size] does on a table that has both columns. *)
Lemma assign_size_ok self kwargs table halo_spin galsize :
  kwargs !! "table" = Some table →
  getitem table "halo_spin" = Ok halo_spin →
  getitem table "galsize" = Ok galsize →
  length (data halo_spin) = length (data galsize) →
  Size.assign_size self kwargs
  = Ok (setitem table "galsize"
          {| dtype := dtype galsize;
             data := (λ x, astype (dtype galsize) (true_divide x (pyfloat 5)))
                       <$> data halo_spin |}).
Proof.
  intros Hkw Hspin Hgal Hlen. unfold Size.assign_size, kwargs_getitem.
  rewrite Hkw. result_simpl. rewrite Hspin, Hgal. unfold setslice.
  rewrite decide_True by (by rewrite length_fmap).
  by rewrite <- list_fmap_compose.
Qed.

(** Whenever [assign_size] returns, the table has its columns where they
    were. *)
Lemma assign_size_colnames self kwargs table table' :
  kwargs !! "table" = Some table →
  Size.assign_size self kwargs = Ok table' →
  colnames table' = colnames table.
Proof.
  intros Hkw. unfold Size.assign_size, kwargs_getitem. rewrite Hkw. result_simpl.
  destruct (getitem table "halo_spin") as [spin|]; [|done].
  destruct (getitem table "galsize") as [gal|] eqn:Hgal; [|done].
  destruct (setslice gal _) as [gal'|]; [|done].
  intros [= <-]. apply colnames_setitem_bound. by eapply getitem_ok_colnames.
Qed.

(** C9, amended.  For every table that has a [halo_spin] and a [galsize]
    column, [Size.assign_size] returns and sets the [galsize] cell of every
    row to the [halo_spin] cell of the row divided by [5.], as stored in
    the dtype of the [galsize] column; the column keeps its dtype; every
    other column is as it was, and so are the names and the order of the
    columns. *)
Theorem assign_size_sets_galsize_only self kwargs table halo_spin galsize :
  table_ok table →
  kwargs !! "table" = Some table →
  getitem table "halo_spin" = Ok halo_spin →
  getitem table "galsize" = Ok galsize →
  ∃ table' galsize',
    Size.assign_size self kwargs = Ok table' ∧
    getitem table' "galsize" = Ok galsize' ∧
    dtype galsize' = dtype galsize ∧
    length (data galsize') = length (data galsize) ∧
    (∀ row x, data halo_spin !! row = Some x →
       data galsize' !! row
       = Some (astype (dtype galsize) (true_divide x (pyfloat 5)))) ∧
    (∀ name, name ≠ "galsize" → getitem table' name = getitem table name) ∧
    colnames table' = colnames table.
Proof.
  intros Hok Hkw Hspin Hgal.
  assert (length (data halo_spin) = length (data galsize)) as Hlen.
  { by rewrite (getitem_length _ _ _ Hok Hspin), (getitem_length _ _ _ Hok Hgal). }
  eexists _, _. split; [by eapply assign_size_ok|].
  split; [apply getitem_setitem|]. simpl.
  split; [done|]. split; [by rewrite length_fmap|].
  split; [|split].
  - intros row x Hrow. by rewrite list_lookup_fmap, Hrow.
  - intros name Hne. by apply getitem_setitem_ne.
  - apply colnames_setitem_bound. by eapply getitem_ok_colnames.
Qed.
End SizeFacts.

(** ** [count_subhalos] and the column it fills *)

Section CountSubhalos.
Context {scalar : Type} `{NumpyScalar scalar}.
Import HaloCatalogAnalysis.

(** The members of a group, taken from the key column itself, are as many
    as the group is large. *)
Lemma length_members_keys (keys : list scalar) k :
  length (members keys keys k) = group_size keys k.
Proof.
  unfold group_size. induction keys as [|k' keys IH]; [done|].
  simpl. rewrite filter_cons. destruct (decide (k' = k)); simpl; by rewrite IH.
Qed.

Lemma add_num_subhalos_ok (halos : Table scalar) halo_hostid :
  getitem halos "halo_hostid" = Ok halo_hostid →
  add_num_subhalos halos
  = Ok (setitem halos "num_subhalos"
          {| dtype := "i4";
             data := (λ k, astype "i4"
                             (pyint (Z.of_nat (group_size (data halo_hostid) k) - 1)))
                       <$> data halo_hostid |}).
Proof.
  intros Hkeys. unfold add_num_subhalos, add_new_table_column, grouping_key,
    colnames_needed_by_function, new_colname, new_coltype.
  result_simpl. rewrite Hkeys.
  erewrite (mapM_ok _ (λ k, pyint (Z.of_nat (group_size (data halo_hostid) k) - 1))).
  - by rewrite <- list_fmap_compose.
  - intros k _. unfold aggregation_function, count_subhalos. simpl.
    by rewrite length_members_keys.
Qed.

(** C8.  For every halo table (a table with a [halo_hostid] column) the
    call of [add_new_table_column] with [count_subhalos] returns, and the
    new column [num_subhalos], of dtype [i4], holds in every row the size
    of the group of the row (the number of rows with the same
    [halo_hostid]) minus one, as an [i4]; in a row that is alone in its
    group it holds zero. *)
Theorem num_subhalos_is_group_size_minus_one (halos : Table scalar) halo_hostid :
  getitem halos "halo_hostid" = Ok halo_hostid →
  ∃ halos' num_subhalos,
    add_num_subhalos halos = Ok halos' ∧
    getitem halos' "num_subhalos" = Ok num_subhalos ∧
    dtype num_subhalos = "i4" ∧
    length (data num_subhalos) = length (data halo_hostid) ∧
    (∀ row k, data halo_hostid !! row = Some k →
       data num_subhalos !! row
       = Some (astype "i4" (pyint (Z.of_nat (group_size (data halo_hostid) k) - 1)))) ∧
    (∀ row k, data halo_hostid !! row = Some k →
       group_size (data halo_hostid) k = 1 →
       data num_subhalos !! row = Some (astype "i4" (pyint 0))).
Proof.
  intros Hkeys. eexists _, _.
  split; [by apply add_num_subhalos_ok|].
  split; [apply getitem_setitem|]. simpl.
  split; [done|]. split; [by rewrite length_fmap|]. split.
  - intros row k Hrow. by rewrite list_lookup_fmap, Hrow.
  - intros row k Hrow Hone. rewrite list_lookup_fmap, Hrow. simpl.
    by rewrite Hone.
Qed.
End CountSubhalos.

(** ** Mock population and [populate_mock] *)

Section HalotoolsFacts.
Context {scalar : Type} `{NumpyScalar scalar}.
Implicit Types (w : World scalar) (self : Model scalar)
  (c : ComponentModel scalar) (cs : list (ComponentModel scalar))
  (table : Table scalar).

Lemma elem_of_colnames_allocate table c n :
  n ∈ colnames (allocate_galprops table c)
  ↔ n ∈ colnames table ∨ n ∈ (_galprop_dtypes_to_allocate c).*1.
Proof.
  unfold allocate_galprops. generalize (nrows table). intros rows.
  revert table. induction (_galprop_dtypes_to_allocate c) as [|[name dt] l IH];
    intros table; simpl.
  - rewrite elem_of_nil. tauto.
  - rewrite IH, elem_of_colnames_setitem, elem_of_cons. tauto.
Qed.

Lemma elem_of_colnames_allocate_all table cs n :
  n ∈ colnames (foldl allocate_galprops table cs)
  ↔ n ∈ colnames table ∨ ∃ c, c ∈ cs ∧ n ∈ (_galprop_dtypes_to_allocate c).*1.
Proof.
  revert table. induction cs as [|c cs IH]; intros table; simpl.
  - split; [by left|]. intros [?|(c & Hc & _)]; [done|]. by apply elem_of_nil in Hc.
  - rewrite IH, elem_of_colnames_allocate. split.
    + intros [[?|?]|(c' & Hc' & ?)]; [by left| |].
      * right. exists c. split; [apply list_elem_of_here|done].
      * right. exists c'. split; [by apply list_elem_of_further|done].
    + intros [?|(c' & Hc' & ?)]; [by left; left|].
      apply elem_of_cons in Hc' as [->|Hc']; [by left; right|].
      right. by exists c'.
Qed.

Lemma call_sequence_colnames c names table table' :
  keeps_columns c → call_sequence c names table = Ok table' →
  colnames table' = colnames table.
Proof.
  intros Hkeep. revert table. induction names as [|name names IH]; intros table; simpl.
  - by intros [= <-].
  - destruct (methods c !! name) as [f|] eqn:Hf; [|done]. result_simpl.
    destruct (f _) as [t1|] eqn:Hcall; [|done].
    intros Hrest. rewrite (IH _ Hrest). by eapply Hkeep.
Qed.

Lemma run_components_colnames cs table table' :
  Forall keeps_columns cs → run_components cs table = Ok table' →
  colnames table' = colnames table.
Proof.
  intros Hkeep. revert table. induction Hkeep as [|c cs Hc _ IH]; intros table; simpl.
  - by intros [= <-].
  - result_simpl.
    destruct (call_sequence c _ table) as [t1|] eqn:Hcall; [|done].
    intros Hrest. rewrite (IH _ Hrest). by eapply call_sequence_colnames.
Qed.

(** The columns of a generated galaxy table, when the components keep the
    columns: those of the seed table and those the components declare. *)
Lemma mock_population_colnames w halocat cs table n :
  Forall keeps_columns cs → mock_population w halocat cs = Ok table →
  n ∈ colnames table
  ↔ n ∈ colnames (seed_table w halocat cs)
    ∨ ∃ c, c ∈ cs ∧ n ∈ (_galprop_dtypes_to_allocate c).*1.
Proof.
  intros Hkeep Hpop. unfold mock_population in Hpop.
  rewrite (run_components_colnames _ _ _ Hkeep Hpop).
  apply elem_of_colnames_allocate_all.
Qed.

(** The methods of a [Size] object keep the columns. *)
Lemma Size_keeps_columns (size : Size.Size) : keeps_columns (Size.component size).
Proof.
  intros name f table table'. simpl. intros Hf Hcall.
  apply lookup_singleton_Some in Hf as [_ <-].
  eapply assign_size_colnames; [|done]. apply lookup_singleton_eq.
Qed.

(** A model made by [HodModelFactory] has the components of the baseline
    model followed by the new ones, and no mock yet. *)
Lemma HodModelFactory_components (baseline : Model scalar) kwargs :
  components (HodModelFactory baseline kwargs) = components baseline ++ kwargs.*2
  ∧ mock (HodModelFactory baseline kwargs) = None.
Proof. unfold components, HodModelFactory. simpl. by rewrite fmap_app. Qed.

(** A successful [populate_mock], case by case. *)
Lemma populate_mock_ok_inv w self kwargs self' :
  populate_mock w self kwargs = (Ok (), self') →
  ∃ halocat table,
    mock_population w halocat (components self) = Ok table ∧
    model_dictionary self' = model_dictionary self ∧
    ((mock self = None ∧ retrieve_catalog w kwargs = Ok halocat ∧
      mock self' = Some {| mock_simname := requested_simname kwargs;
                           mock_halocat := halocat; galaxy_table := table |})
     ∨ (∃ mk, mock self = Some mk ∧ mock_halocat mk = halocat ∧
          test_consistency_with_existing_mock mk kwargs = Ok () ∧
          mock self' = Some {| mock_simname := mock_simname mk;
                               mock_halocat := halocat; galaxy_table := table |})).
Proof.
  unfold populate_mock. destruct (mock self) as [mk|] eqn:Hmock.
  - destruct (test_consistency_with_existing_mock mk kwargs) as [[]|] eqn:Htest; [|done].
    destruct (mock_population w (mock_halocat mk) _) as [t|] eqn:Hpop; [|done].
    intros [= <-]. exists (mock_halocat mk), t. split; [done|]. split; [done|].
    right. by exists mk.
  - destruct (retrieve_catalog w kwargs) as [halocat|] eqn:Hcat; [|done].
    destruct (mock_population w halocat _) as [t|] eqn:Hpop; [|done].
    intros [= <-]. exists halocat, t. split; [done|]. split; [done|]. by left.
Qed.


(** C6.  For every composite model, after a call of [populate_mock] that
    returns, the model has a mock whose [galaxy_table] is the galaxy
    catalog generated from the halo catalog and the components of the
    model; the halo catalog is the one the call was given (by name or as
    an object) if no mock was bound, and the one already bound otherwise. *)
Theorem populate_mock_binds_galaxy_table w self kwargs self' :
  populate_mock w self kwargs = (Ok (), self') →
  ∃ mk,
    mock self' = Some mk ∧
    components self' = components self ∧
    mock_population w (mock_halocat mk) (components self') = Ok (galaxy_table mk) ∧
    (mock self = None → retrieve_catalog w kwargs = Ok (mock_halocat mk)) ∧
    (∀ mk0, mock self = Some mk0 → mock_halocat mk = mock_halocat mk0).
Proof.
  intros Hcall.
  destruct (populate_mock_ok_inv _ _ _ _ Hcall)
    as (halocat & table & Hpop & Hdict & [(Hnone & Hcat & Hmock)|(mk0 & Hsome & <- & _ & Hmock)]).
  - eexists. split; [exact Hmock|]. unfold components. rewrite Hdict. simpl.
    split; [done|]. split; [done|]. split; [done|].
    intros mk0 Hmk0. by rewrite Hnone in Hmk0.
  - eexists. split; [exact Hmock|]. unfold components. rewrite Hdict. simpl.
    split; [done|]. split; [done|]. split.
    + intros Hnone. by rewrite Hnone in Hsome.
    + intros mk1 Hmk1. rewrite Hsome in Hmk1. by injection Hmk1 as <-.
Qed.

(** C10.  For any two builds of [SubhaloModelFactory] with the same
    components under whatever keywords, if [populate_mock] returns for the
    first it returns for the second, and the galaxy tables of the two mocks
    have the same column names; with components that keep the columns,
    these are the columns of the seed table and the names in the
    [_galprop_dtypes_to_allocate] of the components: no keyword is among
    what they depend on. *)
Theorem galaxy_table_columns_ignore_keywords w
    (d1 d2 : list (string * ComponentModel scalar)) kwargs m1 :
  d1.*2 = d2.*2 →
  populate_mock w (SubhaloModelFactory d1) kwargs = (Ok (), m1) →
  ∃ m2 mk1 mk2,
    populate_mock w (SubhaloModelFactory d2) kwargs = (Ok (), m2) ∧
    mock m1 = Some mk1 ∧ mock m2 = Some mk2 ∧
    colnames (galaxy_table mk1) = colnames (galaxy_table mk2) ∧
    (Forall keeps_columns d1.*2 →
     ∀ n, n ∈ colnames (galaxy_table mk1)
          ↔ n ∈ colnames (seed_table w (mock_halocat mk1) d1.*2)
            ∨ ∃ c, c ∈ d1.*2 ∧ n ∈ (_galprop_dtypes_to_allocate c).*1).
Proof.
  intros Hcs Hcall.
  destruct (populate_mock_ok_inv _ _ _ _ Hcall)
    as (halocat & table & Hpop & Hdict & [(_ & Hcat & Hmock)|(mk0 & Hsome & _)]);
    [|done].
  unfold components in Hpop. simpl in Hpop.
  eexists _, _, _. split; [|split; [exact Hmock|]].
  - unfold populate_mock. simpl. rewrite Hcat. unfold components. simpl.
    rewrite <- Hcs, Hpop. done.
  - simpl. split; [done|]. split; [done|].
    intros Hkeep n. by apply mock_population_colnames.
Qed.
End HalotoolsFacts.

(** ** The notebooks and the index page *)

Section RepositoryFacts.
Import Ast Notebooks Repository.

(** C2, as stated, fails: [count_subhalos], defined by the halo-catalog
    notebook, is not the call of something imported. *)
Lemma count_subhalos_does_not_delegate :
  ¬ (∀ nb, nb ∈ notebooks →
       ∀ f, f ∈ defined_functions nb → delegates (imported_names nb) f.2.2 = true).
Proof.
  intros Hall.
  assert (halo_catalog_analysis ∈ notebooks) as Hnb by (vm_compute; left).
  specialize (Hall _ Hnb _ (list_elem_of_here _ _)). by vm_compute in Hall.
Qed.

(** C2, amended.  The notebooks of the repository define three functions,
    [count_subhalos] and the methods [__init__] and [assign_size] of the
    class [Size], none of which is the mere call of something imported;
    outside the bodies of these, every call and every operator in the
    cells goes to an object of an imported library, to a Python builtin,
    or to the class [Size]. *)
Theorem operations_are_external_but_three_functions :
  (flat_map defined_functions notebooks).*1
  = ["count_subhalos"; "Size.__init__"; "Size.assign_size"]
  ∧ Forall (λ nb, Forall (λ f, delegates (imported_names nb) f.2.2 = false)
                    (defined_functions nb)) notebooks
  ∧ Forall (λ nb, Forall (λ k, k ∈ [External; Builtin; OwnClass "Size"])
                    (toplevel_operations nb)) notebooks.
Proof. split; [done|]. split; compute_done. Qed.

(** C3, as stated, fails: the HOD-modelling notebook defines a type. *)
Lemma hod_notebook_defines_a_class :
  ¬ (∀ nb, nb ∈ notebooks → defined_classes nb = []).
Proof.
  intros Hall.
  assert (hod_modeling ∈ notebooks) as Hnb by (vm_compute; right; left).
  by specialize (Hall _ Hnb).
Qed.

(** C3, amended.  The notebooks of the repository define one type, the
    class [Size] of the HOD-modelling notebook.  They declare one dtype, the
    [np.dtype] that [Size.__init__] binds to [_galprop_dtypes_to_allocate],
    with the one field [galsize] of type [f4]; and they have
    [add_new_table_column] add one column, [num_subhalos] of dtype [i4]. *)
Theorem Size_and_two_columns_are_the_data_model :
  flat_map defined_classes notebooks = ["Size"]
  ∧ flat_map dtype_declarations notebooks = [("galsize", "f4")]
  ∧ (∀ gal_type,
       Size._galprop_dtypes_to_allocate (Size.__init__ gal_type)
       = flat_map dtype_declarations notebooks)
  ∧ flat_map added_columns notebooks = [(Some "num_subhalos", Some "i4")]
  ∧ (HaloCatalogAnalysis.new_colname, HaloCatalogAnalysis.new_coltype)
    = ("num_subhalos", "i4").
Proof. repeat split; by vm_compute. Qed.

(** C4.  Run in order from a fresh kernel, the halo-catalog notebook and
    the subhalo-modelling notebook raise no [NameError]; the HOD-modelling
    notebook does: its second code cell calls [Size], whose [__init__]
    reads [np], a name no cell of that notebook binds, and the cells after
    it miss [new_model], which the second cell did not get to bind. *)
Theorem hod_notebook_reads_unbound_np :
  run_notebook 30 halo_catalog_analysis = []
  ∧ run_notebook 30 subhalo_modeling = []
  ∧ run_notebook 30 hod_modeling
    = [(2, NameError "np"); (3, NameError "new_model"); (4, NameError "new_model");
       (5, NameError "new_model"); (6, NameError "new_model");
       (7, NameError "new_model")]
  ∧ "np" ∈ imported_names halo_catalog_analysis
  ∧ "np" ∉ imported_names hod_modeling.
Proof.
  split; [by vm_compute|]. split; [by vm_compute|]. split; [by vm_compute|].
  split; compute_done.
Qed.

(** C5.  The sources hold one index page, and its table of contents has
    one entry, the tutorial [basic_examples/halo_catalog_analysis_tutorial1]. *)
Theorem one_index_page_with_one_entry :
  index_pages = [Rst.halo_catalog_analysis_tutorial]
  ∧ Rst.toctree_entries Rst.halo_catalog_analysis_tutorial
    = ["basic_examples/halo_catalog_analysis_tutorial1"].
Proof. split; by vm_compute. Qed.
End RepositoryFacts.

(** ** The data model the notebooks add *)

Section DataModel.
Context {scalar : Type} `{NumpyScalar scalar}.
Import HaloCatalogAnalysis.

Lemma add_num_subhalos_inv (halos halos' : Table scalar) :
  add_num_subhalos halos = Ok halos' →
  ∃ halo_hostid, getitem halos "halo_hostid" = Ok halo_hostid.
Proof.
  unfold add_num_subhalos, add_new_table_column, grouping_key. result_simpl.
  destruct (getitem halos "halo_hostid") as [c|]; [by eexists|done].
Qed.

(** What the factory allocates for a [Size] component: the one column
    [galsize], of dtype [f4]. *)
Lemma allocate_Size_galsize gal_type (table : Table scalar) :
  let table' := allocate_galprops table (Size.component (Size.__init__ gal_type)) in
  getitem table' "galsize" = Ok (zeros (nrows table) "f4")
  ∧ ∀ n, n ∈ colnames table' ↔ n ∈ colnames table ∨ n = "galsize".
Proof.
  intros table'. subst table'. unfold allocate_galprops. simpl.
  split; [apply getitem_setitem|]. intros n. apply elem_of_colnames_setitem.
Qed.

(** What the call of the halo-catalog notebook adds to the halo table: the
    one column [num_subhalos], of dtype [i4]; the others stay. *)
Lemma add_num_subhalos_frame (halos halos' : Table scalar) :
  add_num_subhalos halos = Ok halos' →
  (∃ c, getitem halos' "num_subhalos" = Ok c ∧ dtype c = "i4")
  ∧ (∀ n, n ∈ colnames halos' ↔ n ∈ colnames halos ∨ n = "num_subhalos")
  ∧ (∀ n, n ≠ "num_subhalos" → getitem halos' n = getitem halos n).
Proof.
  intros Hadd. destruct (add_num_subhalos_inv _ _ Hadd) as [keys Hkeys].
  rewrite (add_num_subhalos_ok _ _ Hkeys) in Hadd. injection Hadd as <-.
  split; [|split].
  - eexists. split; [apply getitem_setitem|done].
  - intros n. apply elem_of_colnames_setitem.
  - intros n Hne. by apply getitem_setitem_ne.
Qed.
End DataModel.

(** ** The properties at work on small tables *)

Section Examples.
Import Numpy HaloCatalogAnalysis.

(** [count_subhalos] on a group of three: two subhalos. *)
Lemma count_subhalos_of_three :
  count_subhalos [NpInt 1; NpInt 1; NpInt 1] = 2%Z.
Proof. reflexivity. Qed.

Lemma two_galaxies_allocated_ok : table_ok two_galaxies_allocated.
Proof. split; compute_done. Qed.

(** C9, as stated, fails: a table with a [halo_spin] column and no
    [galsize] column makes [assign_size] raise. *)
Lemma assign_size_raises_without_galsize :
  table_ok two_halos
  ∧ is_ok (getitem two_halos "halo_spin") = true
  ∧ Size.assign_size (Size.__init__ "centrals") {[ "table" := two_halos ]}
    = Raise (KeyError "galsize").
Proof. split; [split; compute_done|]. split; by vm_compute. Qed.

Lemma assign_size_sets_galsize_only_witness :
  table_ok two_galaxies_allocated
  ∧ ∃ table',
      Size.assign_size (Size.__init__ "centrals") {[ "table" := two_galaxies_allocated ]}
      = Ok table'
      ∧ getitem table' "galsize"
        = Ok {| dtype := "f4"; data := [flt 8388608 (-23); flt 8388608 (-24)] |}
      ∧ getitem table' "halo_spin" = getitem two_galaxies_allocated "halo_spin".
Proof.
  split; [exact two_galaxies_allocated_ok|].
  destruct (assign_size_sets_galsize_only (Size.__init__ "centrals")
              {[ "table" := two_galaxies_allocated ]} two_galaxies_allocated
              {| dtype := "f4"; data := [flt 5 0; flt 5 (-1)] |}
              {| dtype := "f4";
                 data := [NpFloat (S754_zero false); NpFloat (S754_zero false)] |}
              two_galaxies_allocated_ok (lookup_singleton_eq _ _) eq_refl eq_refl)
    as (table' & galsize' & Hcall & Hget & Hdtype & Hlen & Hrows & Hframe & Hnames).
  exists table'. split; [exact Hcall|]. split.
  - rewrite Hget. f_equal. destruct galsize' as [dt cells]. simpl in *.
    subst dt. f_equal.
    pose proof (Hrows 0%nat _ eq_refl) as H0. pose proof (Hrows 1%nat _ eq_refl) as H1.
    destruct cells as [|a [|b [|]]]; try discriminate Hlen.
    injection H0 as ->. injection H1 as ->. reflexivity.
  - apply Hframe. discriminate.
Defined.

Lemma num_subhalos_is_group_size_minus_one_witness :
  getitem four_halos "halo_hostid"
  = Ok {| dtype := "i8"; data := [NpInt 1; NpInt 1; NpInt 3; NpInt 1] |}
  ∧ ∃ halos' num_subhalos,
      add_num_subhalos four_halos = Ok halos'
      ∧ getitem halos' "num_subhalos" = Ok num_subhalos
      ∧ data num_subhalos !! 0%nat = Some (NpInt 2)
      ∧ data num_subhalos !! 2%nat = Some (NpInt 0).
Proof.
  split; [reflexivity|].
  destruct (num_subhalos_is_group_size_minus_one four_halos _ eq_refl)
    as (halos' & num_subhalos & Hcall & Hget & _ & _ & Hrows & Halone).
  exists halos', num_subhalos. split; [exact Hcall|]. split; [exact Hget|]. split.
  - exact (Hrows 0%nat (NpInt 1) eq_refl).
  - exact (Halone 2%nat (NpInt 3) eq_refl eq_refl).
Defined.

Lemma add_num_subhalos_four_halos :
  add_num_subhalos four_halos
  = Ok (four_halos ++ [("num_subhalos",
                        {| dtype := "i4";
                           data := [NpInt 2; NpInt 2; NpInt 0; NpInt 2] |})]).
Proof. by vm_compute. Qed.

(** The model of the subhalo-modelling notebook, with a [Size] component
    in the place of the library's stellar-mass component. *)
Lemma fake_catalog_retrieved :
  retrieve_catalog world (simname_kwarg "fake") = Ok (FakeSim world).
Proof. by vm_compute. Qed.


Lemma fake_mock_population :
  mock_population world (FakeSim world) [cen_size] = Ok two_galaxies.
Proof. by vm_compute. Qed.


Lemma populate_fake keyword :
  populate_mock world (SubhaloModelFactory [(keyword, cen_size)])
    (simname_kwarg "fake")
  = (Ok (), fake_populated keyword).
Proof.
  unfold populate_mock, SubhaloModelFactory, components.
  cbn [mock model_dictionary]. rewrite fake_catalog_retrieved.
  change ([(keyword, cen_size)].*2) with [cen_size].
  by rewrite fake_mock_population.
Qed.


Lemma populate_mock_binds_galaxy_table_witness :
  populate_mock world (SubhaloModelFactory [("stellar_mass", cen_size)])
    (simname_kwarg "fake")
  = (Ok (), fake_populated "stellar_mass")
  ∧ ∃ mk, mock (fake_populated "stellar_mass") = Some mk
          ∧ mock_population world (mock_halocat mk) [cen_size] = Ok (galaxy_table mk).
Proof.
  split; [apply populate_fake|].
  destruct (populate_mock_binds_galaxy_table world _ _ _ (populate_fake "stellar_mass"))
    as (mk & Hmock & _ & Hpop & _).
  exists mk. split; [exact Hmock|exact Hpop].
Defined.

Lemma galaxy_table_columns_ignore_keywords_witness :
  [("stellar_mass", cen_size)].*2 = [("mstar", cen_size)].*2
  ∧ populate_mock world (SubhaloModelFactory [("stellar_mass", cen_size)])
      (simname_kwarg "fake")
    = (Ok (), fake_populated "stellar_mass")
  ∧ ∃ m2 mk1 mk2,
      populate_mock world (SubhaloModelFactory [("mstar", cen_size)])
        (simname_kwarg "fake") = (Ok (), m2)
      ∧ mock (fake_populated "stellar_mass") = Some mk1 ∧ mock m2 = Some mk2
      ∧ colnames (galaxy_table mk1) = colnames (galaxy_table mk2)
      ∧ "galsize" ∈ colnames (galaxy_table mk1).
Proof.
  split; [reflexivity|]. split; [apply populate_fake|].
  destruct (galaxy_table_columns_ignore_keywords world
              [("stellar_mass", cen_size)] [("mstar", cen_size)]
              (simname_kwarg "fake") _ eq_refl (populate_fake "stellar_mass"))
    as (m2 & mk1 & mk2 & Hcall & Hmock1 & Hmock2 & Hnames & Hcolumns).
  exists m2, mk1, mk2.
  split; [exact Hcall|]. split; [exact Hmock1|]. split; [exact Hmock2|].
  split; [exact Hnames|].
  apply Hcolumns.
  - apply Forall_cons. split; [apply Size_keeps_columns|apply Forall_nil_2].
  - right. exists cen_size. split; [apply list_elem_of_here|]. apply list_elem_of_here.
Defined.
End Examples.

(** * Further properties of the code of the notebooks *)

Section MoreTableFacts.
Context {scalar : Type}.
Implicit Types (t : Table scalar) (c : Column scalar) (name : string).

Lemma getitem_missing t name :
  name ∉ colnames t → getitem t name = Raise (KeyError name).
Proof.
  unfold colnames. induction t as [|[k c0] t IH]; simpl; [done|].
  intros Hnin. apply not_elem_of_cons in Hnin as [Hne Hnin].
  rewrite decide_False by done. by apply IH.
Qed.

Lemma setitem_setitem t name c c' :
  setitem (setitem t name c) name c' = setitem t name c'.
Proof.
  induction t as [|[k c0] t IH]; simpl.
  - by rewrite decide_True.
  - destruct (decide (k = name)); simpl.
    + by rewrite decide_True.
    + rewrite decide_False by done. by rewrite IH.
Qed.

Lemma getitem_in t name c : getitem t name = Ok c → (name, c) ∈ t.
Proof.
  induction t as [|[k c0] t IH]; simpl; [done|].
  destruct (decide (k = name)) as [->|].
  - intros [= ->]. apply list_elem_of_here.
  - intros Hget. by apply list_elem_of_further, IH.
Qed.

(** Storing a column of the length of the table under a name the table has
    keeps the table well formed, with as many rows. *)
Lemma setitem_table_ok t name c :
  table_ok t → name ∈ colnames t → length (data c) = nrows t →
  table_ok (setitem t name c) ∧ nrows (setitem t name c) = nrows t.
Proof.
  intros [Hdup Hlen] Hin Hc.
  assert (nrows (setitem t name c) = nrows t) as Hrows.
  { destruct t as [|[k c0] t]; [by apply elem_of_nil in Hin|]. simpl.
    by destruct (decide (k = name)). }
  split; [|done]. split.
  - by rewrite colnames_setitem_bound.
  - rewrite Hrows. revert Hlen Hc. generalize (nrows t). intros n Hlen Hc.
    clear Hdup Hin Hrows.
    induction Hlen as [|[k c0] t' Hk Hlen IH]; simpl.
    + by apply Forall_cons.
    + destruct (decide (k = name)); apply Forall_cons; done.
Qed.

Lemma fmap_const_length {A B} (y : B) (l l' : list A) :
  length l = length l' → (λ _, y) <$> l = (λ _, y) <$> l'.
Proof.
  revert l'. induction l as [|a l IH]; intros [|a' l']; simpl; try done.
  intros [= Hlen]. f_equal. by apply IH.
Qed.
End MoreTableFacts.

(** ** [Size.assign_size]: when it returns, what it keeps, what it forgets *)

Section MoreSizeFacts.
Context {scalar : Type} `{NumpyScalar scalar}.
Implicit Types (table : Table scalar) (self : Size.Size).

Lemma assign_size_inv self kwargs table' :
  Size.assign_size self kwargs = Ok table' →
  ∃ table halo_spin galsize,
    kwargs !! "table" = Some table ∧
    getitem table "halo_spin" = Ok halo_spin ∧
    getitem table "galsize" = Ok galsize.
Proof.
  unfold Size.assign_size, kwargs_getitem.
  destruct (kwargs !! "table") as [table|]; result_simpl; [|done].
  destruct (getitem table "halo_spin") as [spin|] eqn:Hspin; [|done].
  destruct (getitem table "galsize") as [gal|] eqn:Hgal; [|done].
  intros _. by exists table, spin, gal.
Qed.

(** Without a [table] among the keyword arguments the method raises. *)
Lemma assign_size_without_table self kwargs :
  kwargs !! "table" = None → Size.assign_size self kwargs = Raise (KeyError "table").
Proof. intros Hkw. unfold Size.assign_size, kwargs_getitem. by rewrite Hkw. Qed.

(** X1.  On a table, [assign_size] returns exactly when the table has the
    columns the object declares in [list_of_haloprops_needed] and in
    [_galprop_dtypes_to_allocate]; when [halo_spin] is missing it raises
    [KeyError('halo_spin')], whether [galsize] is there or not, and when only
    [galsize] is missing it raises [KeyError('galsize')]. *)
Theorem assign_size_returns_iff_declared_columns gal_type kwargs table :
  table_ok table →
  kwargs !! "table" = Some table →
  let self := Size.__init__ gal_type in
  (is_ok (Size.assign_size self kwargs) = true
   ↔ ∀ name, name ∈ Size.list_of_haloprops_needed self
                    ++ (Size._galprop_dtypes_to_allocate self).*1 →
             name ∈ colnames table)
  ∧ ("halo_spin" ∉ colnames table →
     Size.assign_size self kwargs = Raise (KeyError "halo_spin"))
  ∧ ("halo_spin" ∈ colnames table → "galsize" ∉ colnames table →
     Size.assign_size self kwargs = Raise (KeyError "galsize")).
Proof.
  intros Hok Hkw self.
  assert ("halo_spin" ∉ colnames table →
          Size.assign_size self kwargs = Raise (KeyError "halo_spin")) as Hspin.
  { intros Hnin. unfold Size.assign_size, kwargs_getitem. rewrite Hkw. result_simpl.
    by rewrite (getitem_missing _ _ Hnin). }
  assert ("halo_spin" ∈ colnames table → "galsize" ∉ colnames table →
          Size.assign_size self kwargs = Raise (KeyError "galsize")) as Hgal.
  { intros Hin Hnin. unfold Size.assign_size, kwargs_getitem. rewrite Hkw. result_simpl.
    destruct (colnames_getitem _ _ Hin) as [spin ->].
    by rewrite (getitem_missing _ _ Hnin). }
  split; [|by split]. simpl. split.
  - intros Hret name Hname.
    destruct (Size.assign_size self kwargs) as [table'|] eqn:Hcall; [|done].
    destruct (assign_size_inv _ _ _ Hcall) as (t & spin & gal & Hkw' & Hs & Hg).
    rewrite Hkw in Hkw'. injection Hkw' as <-.
    apply elem_of_cons in Hname as [->|Hname]; [by eapply getitem_ok_colnames|].
    apply list_elem_of_singleton in Hname as ->. by eapply getitem_ok_colnames.
  - intros Hall.
    destruct (colnames_getitem table "halo_spin") as [spin Hs].
    { apply Hall. apply list_elem_of_here. }
    destruct (colnames_getitem table "galsize") as [gal Hg].
    { apply Hall. apply list_elem_of_further, list_elem_of_here. }
    erewrite assign_size_ok; [done|done|done|done|].
    by rewrite (getitem_length _ _ _ Hok Hs), (getitem_length _ _ _ Hok Hg).
Qed.

(** The table [assign_size] returns for a well-formed table. *)
Lemma assign_size_table_ok_inv self kwargs table table' :
  table_ok table →
  kwargs !! "table" = Some table →
  Size.assign_size self kwargs = Ok table' →
  ∃ halo_spin galsize,
    getitem table "halo_spin" = Ok halo_spin ∧
    getitem table "galsize" = Ok galsize ∧
    length (data halo_spin) = length (data galsize) ∧
    table' = setitem table "galsize"
               {| dtype := dtype galsize;
                  data := (λ x, astype (dtype galsize) (true_divide x (pyfloat 5)))
                            <$> data halo_spin |}.
Proof.
  intros Hok Hkw Hcall.
  destruct (assign_size_inv _ _ _ Hcall) as (t & spin & gal & Hkw' & Hs & Hg).
  rewrite Hkw in Hkw'. injection Hkw' as <-.
  assert (length (data spin) = length (data gal)) as Hlen.
  { by rewrite (getitem_length _ _ _ Hok Hs), (getitem_length _ _ _ Hok Hg). }
  exists spin, gal. split; [done|]. split; [done|]. split; [done|].
  rewrite (assign_size_ok _ _ _ _ _ Hkw Hs Hg Hlen) in Hcall. by injection Hcall.
Qed.

(** X2.  [assign_size] is idempotent: called again on the table it
    returned, by whichever [Size] object, it returns that table
    unchanged. *)
Theorem assign_size_idempotent self self' kwargs table table' :
  table_ok table →
  kwargs !! "table" = Some table →
  Size.assign_size self kwargs = Ok table' →
  Size.assign_size self' {[ "table" := table' ]} = Ok table'.
Proof.
  intros Hok Hkw Hcall.
  destruct (assign_size_table_ok_inv _ _ _ _ Hok Hkw Hcall)
    as (spin & gal & Hs & Hg & Hlen & ->).
  set (G := {| dtype := dtype gal;
               data := (λ x, astype (dtype gal) (true_divide x (pyfloat 5)))
                         <$> data spin |}).
  rewrite (assign_size_ok self' _ (setitem table "galsize" G) spin G).
  - simpl. by rewrite setitem_setitem.
  - apply lookup_singleton_eq.
  - by rewrite getitem_setitem_ne.
  - apply getitem_setitem.
  - simpl. by rewrite length_fmap.
Qed.

(** X3.  [assign_size] keeps a table well formed: the returned table is
    well formed, has as many rows, the same columns in the same order, and
    every column has the dtype and the length it had. *)
Theorem assign_size_keeps_table_shape self kwargs table table' :
  table_ok table →
  kwargs !! "table" = Some table →
  Size.assign_size self kwargs = Ok table' →
  table_ok table' ∧ nrows table' = nrows table ∧ colnames table' = colnames table
  ∧ ∀ name c', getitem table' name = Ok c' →
      ∃ c, getitem table name = Ok c ∧ dtype c' = dtype c
           ∧ length (data c') = length (data c).
Proof.
  intros Hok Hkw Hcall.
  destruct (assign_size_table_ok_inv _ _ _ _ Hok Hkw Hcall)
    as (spin & gal & Hs & Hg & Hlen & ->).
  assert ("galsize" ∈ colnames table) as Hin by (by eapply getitem_ok_colnames).
  destruct (setitem_table_ok table "galsize"
              {| dtype := dtype gal;
                 data := (λ x, astype (dtype gal) (true_divide x (pyfloat 5)))
                           <$> data spin |} Hok Hin) as [Hok' Hrows].
  { simpl. by rewrite length_fmap, (getitem_length _ _ _ Hok Hs). }
  split; [done|]. split; [done|]. split; [by apply colnames_setitem_bound|].
  intros name c'. destruct (decide (name = "galsize")) as [->|Hne].
  - rewrite getitem_setitem. intros [= <-]. exists gal. simpl.
    split; [done|]. split; [done|]. by rewrite length_fmap.
  - rewrite getitem_setitem_ne by done. intros Hget. by exists c'.
Qed.

(** X4.  [assign_size] overwrites: what the [galsize] column held before
    the call has no part in the outcome.  Replacing the column by another of
    the same dtype and length, then calling, gives what calling gives. *)
Theorem assign_size_forgets_old_galsize self table old new :
  getitem table "galsize" = Ok old →
  dtype new = dtype old →
  length (data new) = length (data old) →
  Size.assign_size self {[ "table" := setitem table "galsize" new ]}
  = Size.assign_size self {[ "table" := table ]}.
Proof.
  intros Hold Hdt Hlen. unfold Size.assign_size, kwargs_getitem.
  rewrite !lookup_singleton_eq. result_simpl.
  rewrite getitem_setitem_ne by done.
  destruct (getitem table "halo_spin") as [spin|]; [|done].
  rewrite getitem_setitem, Hold. unfold setslice. rewrite Hdt, Hlen.
  destruct (decide (length _ = length (data old))).
  - by rewrite setitem_setitem.
  - destruct (list_fmap _ _ _ (data spin)) as [|v [|]]; simpl; try done.
    rewrite setitem_setitem. do 3 f_equal. by apply fmap_const_length.
Qed.
End MoreSizeFacts.

(** ** The selections: [halos] and [hosts] *)

Section SelectionFacts.
Context {scalar : Type} `{NumpyScalar scalar} `{NumpyCompare scalar}.
Import HaloSelection.

Lemma compress_nil_r {A} (m : list bool) : compress m (@nil A) = [].
Proof. by destruct m. Qed.

Lemma compress_fmap {A B} (f : A → B) (m : list bool) (l : list A) :
  compress m (f <$> l) = f <$> compress m l.
Proof.
  revert l. induction m as [|b m IH]; intros [|x l]; simpl; try done.
  destruct b; simpl; by rewrite IH.
Qed.

(** Selecting with the mask computed from a column filters the column. *)
Lemma compress_fmap_filter {A} (f : A → bool) (l : list A) :
  compress (f <$> l) l = filter (λ x, f x) l.
Proof.
  induction l as [|x l IH]; [done|]. simpl. rewrite filter_cons.
  case_decide as Hfx.
  - apply Is_true_true in Hfx. rewrite Hfx. simpl. f_equal. exact IH.
  - apply Is_true_false in Hfx. rewrite Hfx. simpl. exact IH.
Qed.

(** Selecting with the mask computed from one column, on another column of
    the same length, keeps the cells of the rows the first column picks. *)
Lemma compress_fmap_zip {A B} (f : A → bool) (u : list A) (l : list B) :
  length u = length l →
  compress (f <$> u) l = snd <$> filter (λ r, f r.1) (zip u l).
Proof.
  revert l. induction u as [|a u IH]; intros [|x l]; simpl; try done.
  intros [= Hlen]. rewrite filter_cons. simpl. case_decide as Hfa.
  - apply Is_true_true in Hfa. rewrite Hfa. simpl. f_equal. by apply IH.
  - apply Is_true_false in Hfa. rewrite Hfa. simpl. by apply IH.
Qed.

Lemma length_compress {A B} (m : list bool) (l : list A) (l' : list B) :
  length l = length l' → length (compress m l) = length (compress m l').
Proof.
  revert l l'. induction m as [|b m IH]; intros [|x l] [|x' l']; simpl; try done.
  intros [= Hlen]. destruct b; simpl; by rewrite (IH l l').
Qed.

Lemma compress_zip {A B} (m : list bool) (a : list A) (b : list B) :
  compress m (zip a b) = zip (compress m a) (compress m b).
Proof.
  revert a b. induction m as [|c m IH]; intros [|x a] [|y b]; simpl; try done.
  - by destruct (if c then _ else _).
  - destruct c; simpl; by rewrite IH.
Qed.

Lemma compress_sublist {A} (m : list bool) (l : list A) : sublist (compress m l) l.
Proof.
  revert l. induction m as [|b m IH]; intros [|x l]; simpl; try apply sublist_nil_l.
  destruct b; [by apply sublist_skip|by apply sublist_cons].
Qed.

(** Two selections in a row are one selection, by the conjunction of the
    masks. *)
Lemma compress_compress {A} (m1 m2 : list bool) (l : list A) :
  compress (compress m1 m2) (compress m1 l) = compress (zip_with andb m1 m2) l.
Proof.
  revert m2 l. induction m1 as [|b m1 IH]; intros [|b2 m2] [|x l]; simpl; try done.
  - by rewrite compress_nil_r.
  - destruct b; simpl; [|by rewrite IH]. destruct b2; by rewrite IH.
Qed.

Lemma getitem_getitem_mask (t : Table scalar) (m : list bool) name :
  getitem (getitem_mask t m) name
  = (λ c, {| dtype := dtype c; data := compress m (data c) |}) <$> getitem t name.
Proof.
  induction t as [|[k c0] t IH]; simpl; [done|].
  by destruct (decide (k = name)).
Qed.

Lemma colnames_getitem_mask (t : Table scalar) (m : list bool) :
  colnames (getitem_mask t m) = colnames t.
Proof.
  unfold colnames, getitem_mask. rewrite <- list_fmap_compose.
  by apply list_fmap_ext.
Qed.

Lemma table_ok_getitem_mask (t : Table scalar) (m : list bool) :
  table_ok t → table_ok (getitem_mask t m).
Proof.
  intros [Hdup Hlen]. split; [by rewrite colnames_getitem_mask|].
  destruct t as [|[k c] t]; [apply Forall_nil_2|].
  unfold getitem_mask. rewrite Forall_fmap. simpl in *.
  eapply Forall_impl; [exact Hlen|]. intros [k' c'] Hc'. simpl in *.
  by apply length_compress.
Qed.

Lemma getitem_mask_compose (t : Table scalar) (m1 m2 : list bool) :
  getitem_mask (getitem_mask t m1) (compress m1 m2)
  = getitem_mask t (zip_with andb m1 m2).
Proof.
  unfold getitem_mask. rewrite <- list_fmap_compose. apply list_fmap_ext.
  intros _ [k c] _. simpl. by rewrite compress_compress.
Qed.

Lemma halos_ok (halocat : CachedHaloCatalog scalar) halo_mpeak :
  getitem (halo_table halocat) "halo_mpeak" = Ok halo_mpeak →
  halos halocat
  = Ok (getitem_mask (halo_table halocat)
          ((λ x, greater x (multiply (pyint 1000) (particle_mass halocat)))
             <$> data halo_mpeak)).
Proof. intros Hget. unfold halos, mask. by rewrite Hget. Qed.

Lemma hosts_ok (halos : Table scalar) halo_upid :
  getitem halos "halo_upid" = Ok halo_upid →
  hosts halos
  = Ok (getitem_mask halos ((λ x, equal x (pyint (-1))) <$> data halo_upid)).
Proof. intros Hget. unfold hosts, hostmask. by rewrite Hget. Qed.

(** X5.  On a halo table with a [halo_mpeak] column, [halos] is a
    well-formed table with the columns of the halo table, in their order and
    with their dtypes; its rows are the rows of the halo table whose
    [halo_mpeak] is greater than a thousand particle masses, in catalog
    order, and every column is a selection, in order, of the cells it
    had. *)
Theorem halos_are_the_rows_above_the_cut (halocat : CachedHaloCatalog scalar)
    halo_mpeak :
  table_ok (halo_table halocat) →
  getitem (halo_table halocat) "halo_mpeak" = Ok halo_mpeak →
  let massive := λ x, greater x (multiply (pyint 1000) (particle_mass halocat)) in
  ∃ halos',
    halos halocat = Ok halos' ∧
    table_ok halos' ∧
    colnames halos' = colnames (halo_table halocat) ∧
    getitem halos' "halo_mpeak"
    = Ok {| dtype := dtype halo_mpeak; data := filter massive (data halo_mpeak) |} ∧
    nrows halos' = length (filter massive (data halo_mpeak)) ∧
    ∀ name c, getitem (halo_table halocat) name = Ok c →
      ∃ c', getitem halos' name = Ok c' ∧ dtype c' = dtype c
            ∧ length (data c') = nrows halos' ∧ sublist (data c') (data c).
Proof.
  intros Hok Hget massive. eexists. split; [by apply halos_ok|].
  fold massive. set (m := massive <$> data halo_mpeak).
  assert (table_ok (getitem_mask (halo_table halocat) m)) as Hok'
    by (by apply table_ok_getitem_mask).
  assert (getitem (getitem_mask (halo_table halocat) m) "halo_mpeak"
          = Ok {| dtype := dtype halo_mpeak;
                  data := filter massive (data halo_mpeak) |}) as Hget'.
  { rewrite getitem_getitem_mask, Hget. simpl. unfold m.
    by rewrite compress_fmap_filter. }
  split; [done|]. split; [apply colnames_getitem_mask|]. split; [done|].
  split; [by rewrite <- (getitem_length _ _ _ Hok' Hget')|].
  intros name c Hc. eexists. split; [by rewrite getitem_getitem_mask, Hc|]. simpl.
  split; [done|]. split; [|apply compress_sublist].
  rewrite <- (getitem_length _ _ _ Hok' Hget'). simpl.
  rewrite <- compress_fmap_filter. fold m. apply length_compress.
  by rewrite (getitem_length _ _ _ Hok Hc), (getitem_length _ _ _ Hok Hget).
Qed.

(** X6.  On a table of halos with the three columns the cell reads,
    [hosts] is a well-formed table whose [halo_upid] cells all equal [-1],
    and the two arrays handed to [mean_y_vs_x] are aligned: they have one
    length, and their pairs are, in order, the host mass and the number of
    subhalos of the rows of [halos] whose [halo_upid] equals [-1]. *)
Theorem mean_y_vs_x_arrays_are_aligned (halos : Table scalar)
    halo_upid halo_mvir_host_halo num_subhalos :
  table_ok halos →
  getitem halos "halo_upid" = Ok halo_upid →
  getitem halos "halo_mvir_host_halo" = Ok halo_mvir_host_halo →
  getitem halos "num_subhalos" = Ok num_subhalos →
  let is_host := λ x, equal x (pyint (-1)) in
  ∃ hosts' xs ys,
    hosts halos = Ok hosts' ∧
    table_ok hosts' ∧
    getitem hosts' "halo_upid"
    = Ok {| dtype := dtype halo_upid; data := filter is_host (data halo_upid) |} ∧
    mean_y_vs_x_arrays hosts' = Ok (xs, ys) ∧
    length xs = length ys ∧
    zip xs ys
    = snd <$> filter (λ r, is_host r.1)
                (zip (data halo_upid)
                     (zip (data halo_mvir_host_halo) (data num_subhalos))).
Proof.
  intros Hok Hupid Hmvir Hnum is_host. eexists _, _, _.
  split; [by apply hosts_ok|]. fold is_host.
  split; [by apply table_ok_getitem_mask|].
  split.
  { rewrite getitem_getitem_mask, Hupid. simpl. by rewrite compress_fmap_filter. }
  split.
  { unfold mean_y_vs_x_arrays. rewrite !getitem_getitem_mask, Hmvir, Hnum. done. }
  assert (length (data halo_mvir_host_halo) = length (data num_subhalos)) as Hlen.
  { by rewrite (getitem_length _ _ _ Hok Hmvir), (getitem_length _ _ _ Hok Hnum). }
  simpl. split; [by apply length_compress|].
  rewrite <- compress_zip. apply compress_fmap_zip.
  rewrite length_zip_with, <- Hlen, Nat.min_id.
  by rewrite (getitem_length _ _ _ Hok Hupid), (getitem_length _ _ _ Hok Hmvir).
Qed.

(** X7.  The two selections of the notebook compose into one: [hosts] of
    [halos] is the halo table restricted, in catalog order, to the rows that
    are above the mass cut and whose [halo_upid] equals [-1]. *)
Theorem hosts_of_halos_is_one_selection (halocat : CachedHaloCatalog scalar)
    halo_mpeak halo_upid :
  table_ok (halo_table halocat) →
  getitem (halo_table halocat) "halo_mpeak" = Ok halo_mpeak →
  getitem (halo_table halocat) "halo_upid" = Ok halo_upid →
  let massive := λ x, greater x (multiply (pyint 1000) (particle_mass halocat)) in
  let is_host := λ x, equal x (pyint (-1)) in
  halos halocat ≫= hosts
  = Ok (getitem_mask (halo_table halocat)
          (zip_with andb (massive <$> data halo_mpeak) (is_host <$> data halo_upid))).
Proof.
  intros _ Hmpeak Hupid massive is_host.
  rewrite (halos_ok _ _ Hmpeak). fold massive.
  change (hosts (getitem_mask (halo_table halocat) (massive <$> data halo_mpeak))
          = Ok (getitem_mask (halo_table halocat)
                  (zip_with andb (massive <$> data halo_mpeak)
                                 (is_host <$> data halo_upid)))).
  erewrite hosts_ok; [|by rewrite getitem_getitem_mask, Hupid].
  simpl. fold is_host. by rewrite <- compress_fmap, getitem_mask_compose.
Qed.
End SelectionFacts.

(** ** [count_subhalos] and the cell that calls [add_new_table_column] *)

Section MoreCountSubhalos.
Context {scalar : Type} `{NumpyScalar scalar}.
Import HaloCatalogAnalysis.

(** X8.  [count_subhalos] is [-1] on the empty column and on no other; on
    a column with a first cell it is the number of the other cells; and over
    two columns put end to end it is the sum of the two counts plus one. *)
Theorem count_subhalos_counts_all_but_one (x y : list scalar) :
  (count_subhalos x = (-1)%Z ↔ x = [])
  ∧ (∀ a, count_subhalos (a :: x) = Z.of_nat (length x))
  ∧ count_subhalos (x ++ y) = (count_subhalos x + count_subhalos y + 1)%Z.
Proof.
  unfold count_subhalos. split; [|split].
  - split; [|by intros ->]. destruct x; [done|]. simpl length. lia.
  - intros a. simpl length. lia.
  - rewrite length_app. lia.
Qed.

(** The members of a group, taken from any column of the length of the key
    column, are as many as the group is large. *)
Lemma length_members (keys col : list scalar) k :
  length col = length keys → length (members keys col k) = group_size keys k.
Proof.
  unfold group_size. revert col. induction keys as [|k' keys IH]; intros [|x col];
    simpl; try done.
  intros [= Hlen]. rewrite filter_cons.
  destruct (decide (k' = k)); simpl; by rewrite IH.
Qed.

(** X9.  As the cell says of [colnames_needed_by_function], any column will
    do: with [add_new_table_column] as modelled, naming any one column of the
    table in the place of [halo_hostid] gives the same table. *)
Theorem any_column_will_do (halos : Table scalar) name c halo_hostid :
  table_ok halos →
  getitem halos "halo_hostid" = Ok halo_hostid →
  getitem halos name = Ok c →
  add_new_table_column halos new_colname new_coltype grouping_key
    aggregation_function [name]
  = add_num_subhalos halos.
Proof.
  intros Hok Hkeys Hc. rewrite (add_num_subhalos_ok _ _ Hkeys).
  unfold add_new_table_column, grouping_key, new_colname, new_coltype.
  result_simpl. rewrite Hkeys, Hc.
  erewrite (mapM_ok _ (λ k, pyint (Z.of_nat (group_size (data halo_hostid) k) - 1))).
  - by rewrite <- list_fmap_compose.
  - intros k _. unfold aggregation_function, count_subhalos. simpl.
    rewrite length_members; [done|].
    by rewrite (getitem_length _ _ _ Hok Hc), (getitem_length _ _ _ Hok Hkeys).
Qed.

Lemma group_size_bounds (keys : list scalar) (k : scalar) :
  k ∈ keys → (1 ≤ group_size keys k ≤ length keys)%nat.
Proof.
  intros Hin. unfold group_size. split; [|apply length_filter].
  assert (k ∈ filter (λ k', k' = k) keys) as Hk by (by apply list_elem_of_filter).
  destruct (filter _ keys); [by apply elem_of_nil in Hk|simpl; lia].
Qed.

(** X10.  With [add_new_table_column] as modelled, the counts the cell
    stores are in range: every cell of [num_subhalos] holds, as an [i4], a
    number from zero to the number of rows minus one; the [-1] of
    [count_subhalos] on an empty column never gets there. *)
Theorem num_subhalos_counts_are_in_range (halos halos' : Table scalar) :
  add_num_subhalos halos = Ok halos' →
  ∃ num_subhalos,
    getitem halos' "num_subhalos" = Ok num_subhalos ∧
    ∀ row cell, data num_subhalos !! row = Some cell →
      ∃ n : Z, (0 ≤ n < Z.of_nat (length (data num_subhalos)))%Z
               ∧ cell = astype "i4" (pyint n).
Proof.
  intros Hadd. destruct (add_num_subhalos_inv _ _ Hadd) as [keys Hkeys].
  rewrite (add_num_subhalos_ok _ _ Hkeys) in Hadd. injection Hadd as <-.
  eexists. split; [apply getitem_setitem|]. simpl. intros row cell.
  rewrite list_lookup_fmap, length_fmap.
  destruct (data keys !! row) as [k|] eqn:Hrow; [|done]. simpl. intros [= <-].
  eexists. split; [|done].
  assert (k ∈ data keys) as Hin by (by eapply list_elem_of_lookup_2).
  pose proof (group_size_bounds (data keys) k Hin) as Hb. lia.
Qed.
End MoreCountSubhalos.

(** ** The notebook that misses its import *)

Section MoreNotebookFacts.
Import Ast Notebooks.

(** The import of numpy is all the HOD-modelling notebook misses: run
    after a cell [import numpy as np], none of its cells raises, neither on
    [np] in [Size.__init__] nor on any other name. *)
Theorem hod_notebook_runs_once_numpy_is_imported :
  run_notebook 30 (Code [Import "numpy" "np"] :: hod_modeling) = [].
Proof. by vm_compute. Qed.
End MoreNotebookFacts.

(** ** The further properties at work on small tables *)

Section MoreExamples.
Import Numpy NumpySelection HaloSelection HaloCatalogAnalysis.

Lemma two_halos_ok : table_ok two_halos.
Proof. split; compute_done. Qed.

Lemma five_halos_ok : table_ok five_halos.
Proof. split; compute_done. Qed.

Lemma three_halos_ok : table_ok three_halos.
Proof. split; compute_done. Qed.

Lemma four_halos_ok : table_ok four_halos.
Proof. split; compute_done. Qed.

Lemma assign_size_two_galaxies :
  Size.assign_size (Size.__init__ "centrals") {[ "table" := two_galaxies_allocated ]}
  = Ok two_galaxies.
Proof. by vm_compute. Qed.

Lemma assign_size_returns_iff_declared_columns_witness :
  table_ok two_halos
  ∧ ("halo_spin" ∈ colnames two_halos)
  ∧ ("galsize" ∉ colnames two_halos)
  ∧ Size.assign_size (Size.__init__ "centrals") {[ "table" := two_halos ]}
    = Raise (KeyError "galsize").
Proof.
  assert ("halo_spin" ∈ colnames two_halos) as Hin by compute_done.
  assert ("galsize" ∉ colnames two_halos) as Hnin by compute_done.
  split; [exact two_halos_ok|]. split; [exact Hin|]. split; [exact Hnin|].
  exact (proj2 (proj2 (assign_size_returns_iff_declared_columns "centrals"
                         {[ "table" := two_halos ]} two_halos two_halos_ok
                         (lookup_singleton_eq _ _))) Hin Hnin).
Defined.

Lemma assign_size_idempotent_witness :
  table_ok two_galaxies_allocated
  ∧ Size.assign_size (Size.__init__ "centrals") {[ "table" := two_galaxies_allocated ]}
    = Ok two_galaxies
  ∧ Size.assign_size (Size.__init__ "satellites") {[ "table" := two_galaxies ]}
    = Ok two_galaxies.
Proof.
  split; [exact two_galaxies_allocated_ok|]. split; [exact assign_size_two_galaxies|].
  exact (assign_size_idempotent (Size.__init__ "centrals") (Size.__init__ "satellites")
           _ _ _ two_galaxies_allocated_ok (lookup_singleton_eq _ _)
           assign_size_two_galaxies).
Defined.

Lemma assign_size_keeps_table_shape_witness :
  table_ok two_galaxies_allocated
  ∧ Size.assign_size (Size.__init__ "centrals") {[ "table" := two_galaxies_allocated ]}
    = Ok two_galaxies
  ∧ table_ok two_galaxies
  ∧ nrows two_galaxies = nrows two_galaxies_allocated.
Proof.
  split; [exact two_galaxies_allocated_ok|]. split; [exact assign_size_two_galaxies|].
  destruct (assign_size_keeps_table_shape (Size.__init__ "centrals") _ _ _
              two_galaxies_allocated_ok (lookup_singleton_eq _ _)
              assign_size_two_galaxies) as (Hok & Hrows & _).
  split; [exact Hok|exact Hrows].
Defined.

Lemma assign_size_forgets_old_galsize_witness :
  getitem two_galaxies_allocated "galsize"
  = Ok {| dtype := "f4";
          data := [NpFloat (S754_zero false); NpFloat (S754_zero false)] |}
  ∧ Size.assign_size (Size.__init__ "centrals")
      {[ "table" := setitem two_galaxies_allocated "galsize"
                      {| dtype := "f4";
                         data := [flt 8388608 (-23); flt 8388608 (-24)] |} ]}
    = Size.assign_size (Size.__init__ "centrals")
        {[ "table" := two_galaxies_allocated ]}.
Proof.
  split; [reflexivity|].
  exact (assign_size_forgets_old_galsize (Size.__init__ "centrals")
           two_galaxies_allocated _
           {| dtype := "f4"; data := [flt 8388608 (-23); flt 8388608 (-24)] |}
           eq_refl eq_refl eq_refl).
Defined.

Lemma halos_are_the_rows_above_the_cut_witness :
  table_ok (halo_table five_halo_catalog)
  ∧ is_ok (getitem (halo_table five_halo_catalog) "halo_mpeak") = true
  ∧ ∃ halos', halos five_halo_catalog = Ok halos'
              ∧ table_ok halos' ∧ nrows halos' = 3.
Proof.
  split; [exact five_halos_ok|]. split; [reflexivity|].
  destruct (halos_are_the_rows_above_the_cut five_halo_catalog _ five_halos_ok eq_refl)
    as (halos' & Hcall & Hok & _ & _ & Hrows & _).
  exists halos'. split; [exact Hcall|]. split; [exact Hok|].
  rewrite Hrows. by vm_compute.
Defined.

Lemma mean_y_vs_x_arrays_are_aligned_witness :
  table_ok three_halos
  ∧ ∃ hosts' xs ys,
      hosts three_halos = Ok hosts'
      ∧ mean_y_vs_x_arrays hosts' = Ok (xs, ys)
      ∧ zip xs ys = [(flt 1 12, NpInt 1); (flt 375 2, NpInt 0)].
Proof.
  split; [exact three_halos_ok|].
  destruct (mean_y_vs_x_arrays_are_aligned three_halos _ _ _ three_halos_ok
              eq_refl eq_refl eq_refl)
    as (hosts' & xs & ys & Hcall & _ & _ & Harrays & _ & Hzip).
  exists hosts', xs, ys. split; [exact Hcall|]. split; [exact Harrays|].
  rewrite Hzip. by vm_compute.
Defined.

Lemma hosts_of_halos_is_one_selection_witness :
  table_ok (halo_table five_halo_catalog)
  ∧ halos five_halo_catalog ≫= hosts
    = Ok (getitem_mask five_halos [true; false; false; true; false]).
Proof.
  split; [exact five_halos_ok|].
  rewrite (hosts_of_halos_is_one_selection five_halo_catalog _ _ five_halos_ok
             eq_refl eq_refl).
  by vm_compute.
Defined.

Lemma any_column_will_do_witness :
  table_ok four_halos
  ∧ add_new_table_column four_halos new_colname new_coltype grouping_key
      aggregation_function ["halo_spin"]
    = add_num_subhalos four_halos.
Proof.
  split; [exact four_halos_ok|].
  exact (any_column_will_do four_halos "halo_spin" _ _ four_halos_ok eq_refl eq_refl).
Defined.

Lemma num_subhalos_counts_are_in_range_witness :
  add_num_subhalos four_halos
  = Ok (four_halos ++ [("num_subhalos",
                        {| dtype := "i4";
                           data := [NpInt 2; NpInt 2; NpInt 0; NpInt 2] |})])
  ∧ ∃ num_subhalos,
      getitem (four_halos ++ [("num_subhalos",
                        {| dtype := "i4";
                           data := [NpInt 2; NpInt 2; NpInt 0; NpInt 2] |})])
              "num_subhalos" = Ok num_subhalos
      ∧ ∀ row cell, data num_subhalos !! row = Some cell →
          ∃ n : Z, (0 ≤ n < Z.of_nat (length (data num_subhalos)))%Z
                   ∧ cell = astype "i4" (pyint n).
Proof.
  split; [exact add_num_subhalos_four_halos|].
  exact (num_subhalos_counts_are_in_range _ _ add_num_subhalos_four_halos).
Defined.
End MoreExamples.
